(** * yuzu key manager: [core/crypto/key_manager.cpp]

    A shallow embedding of the key store, the key file codec and the
    derivation routines of [Core::Crypto], followed by the properties
    that the specification states about them. *)

From Stdlib Require Import Strings.Ascii Strings.String Strings.Byte.
From stdpp Require Import gmap strings list vector.
From Equations Require Import Equations.

(** ** Bytes, fixed-size arrays and machine integers *)

(** [u8]: the 256 values of [Byte.byte]. *)
Abbreviation u8 := Byte.byte.

#[global] Instance u8_eq_dec : EqDecision u8 := Byte.byte_eq_dec.

(** [u64] values are naturals below [2^64]; the only arithmetic done on
    them here is the [memcpy] from and to byte arrays. *)
Abbreviation u64 := N (only parsing).

(** [std::array<u8, n>]. *)
Abbreviation array n := (vec u8 n).
Abbreviation Key128 := (vec u8 16).
Abbreviation Key256 := (vec u8 32).

(** [std::array<u8, n>{}]: value-initialised, all zero. *)
Definition zero_array (n : nat) : array n := vreplicate n x00.

(** The byte with value [n mod 256]. *)
Definition u8_of_N (n : N) : u8 :=
  default x00 (Byte.of_N (n mod 256)%N).

(** [a ^ b] on [u8]. *)
Definition u8_xor (a b : u8) : u8 :=
  u8_of_N (N.lxor (Byte.to_N a) (Byte.to_N b)).

(** [memcpy] of bytes into an integer on a little-endian host. *)
Fixpoint le_to_N (bs : list u8) : N :=
  match bs with
  | [] => 0%N
  | b :: bs' => (Byte.to_N b + 256 * le_to_N bs')%N
  end.

(** [memcpy] of the low [k] bytes of an integer into a byte array. *)
Fixpoint N_to_le (k : nat) (n : N) : array k :=
  match k with
  | O => vnil
  | S k' => vcons (u8_of_N n) (N_to_le k' (n / 256)%N)
  end.

(** ** Key index model ([key_manager.h]) *)

(** Modelled from the spec: the enumerations of [key_manager.h], which is
    not among the sources; the enumerators are the ones the source names,
    and the purposes are numbered in the order the spec lists them. *)
Inductive S128KeyType :=
| Master | Package1 | Package2 | Titlekey | ETicketRSAKek
| KeyArea | SDSeed | Titlekek | Source.

Inductive S256KeyType := Header | SDKeySource.

Inductive KeyAreaKeyType := Application | Ocean | System.
Inductive SourceKeyType := SDKEK | AESKEKGeneration | AESKeyGeneration.
Inductive SDKeyType := Save | NCA.

(** [static_cast<u64>] on the three purpose enumerations. *)
Definition KeyAreaKeyType_u64 (t : KeyAreaKeyType) : u64 :=
  match t with Application => 0 | Ocean => 1 | System => 2 end%N.
Definition SourceKeyType_u64 (t : SourceKeyType) : u64 :=
  match t with SDKEK => 0 | AESKEKGeneration => 1 | AESKeyGeneration => 2 end%N.
Definition SDKeyType_u64 (t : SDKeyType) : u64 :=
  match t with Save => 0 | NCA => 1 end%N.

#[global] Instance S128KeyType_eq_dec : EqDecision S128KeyType.
Proof. solve_decision. Defined.
#[global] Instance S256KeyType_eq_dec : EqDecision S256KeyType.
Proof. solve_decision. Defined.

Definition S128KeyType_code (t : S128KeyType) : nat :=
  match t with
  | Master => 0 | Package1 => 1 | Package2 => 2 | Titlekey => 3
  | ETicketRSAKek => 4 | KeyArea => 5 | SDSeed => 6 | Titlekek => 7
  | Source => 8
  end.
Definition S128KeyType_decode (n : nat) : option S128KeyType :=
  match n with
  | 0 => Some Master | 1 => Some Package1 | 2 => Some Package2
  | 3 => Some Titlekey | 4 => Some ETicketRSAKek | 5 => Some KeyArea
  | 6 => Some SDSeed | 7 => Some Titlekek | 8 => Some Source
  | _ => None
  end.
#[global] Instance S128KeyType_countable : Countable S128KeyType.
Proof.
  refine (inj_countable S128KeyType_code S128KeyType_decode _); by intros [].
Defined.

Definition S256KeyType_code (t : S256KeyType) : nat :=
  match t with Header => 0 | SDKeySource => 1 end.
Definition S256KeyType_decode (n : nat) : option S256KeyType :=
  match n with 0 => Some Header | 1 => Some SDKeySource | _ => None end.
#[global] Instance S256KeyType_countable : Countable S256KeyType.
Proof.
  refine (inj_countable S256KeyType_code S256KeyType_decode _); by intros [].
Defined.

(** [template <typename KeyType> struct KeyIndex]. *)
Record KeyIndex (KeyType : Type) := MkKeyIndex {
  type : KeyType;
  field1 : u64;
  field2 : u64;
}.
Arguments MkKeyIndex {KeyType} _ _ _.
Arguments type {KeyType} _.
Arguments field1 {KeyType} _.
Arguments field2 {KeyType} _.

#[global] Instance KeyIndex_eq_dec `{EqDecision K} : EqDecision (KeyIndex K).
Proof. solve_decision. Defined.
#[global] Instance KeyIndex_countable `{Countable K} : Countable (KeyIndex K).
Proof.
  refine (inj_countable' (λ i, (type i, field1 i, field2 i))
                         (λ t, MkKeyIndex t.1.1 t.1.2 t.2) _); by intros [].
Defined.

(** ** Key store *)

(** The data members of [class KeyManager]. *)
Record KeyManager := MkKeyManager {
  dev_mode : bool;
  s128_keys : gmap (KeyIndex S128KeyType) Key128;
  s256_keys : gmap (KeyIndex S256KeyType) Key256;
}.

(** [KeyManager::HasKey(S128KeyType, u64, u64)]. *)
Definition HasKey128 (km : KeyManager) (id : S128KeyType) (f1 f2 : u64) : bool :=
  bool_decide (is_Some (s128_keys km !! MkKeyIndex id f1 f2)).

(** [KeyManager::HasKey(S256KeyType, u64, u64)]. *)
Definition HasKey256 (km : KeyManager) (id : S256KeyType) (f1 f2 : u64) : bool :=
  bool_decide (is_Some (s256_keys km !! MkKeyIndex id f1 f2)).

(** [KeyManager::GetKey(S128KeyType, u64, u64)]; [at] cannot throw after
    the membership test. *)
Definition GetKey128 (km : KeyManager) (id : S128KeyType) (f1 f2 : u64) : Key128 :=
  if negb (HasKey128 km id f1 f2) then zero_array 16
  else default (zero_array 16) (s128_keys km !! MkKeyIndex id f1 f2).

(** [KeyManager::GetKey(S256KeyType, u64, u64)]. *)
Definition GetKey256 (km : KeyManager) (id : S256KeyType) (f1 f2 : u64) : Key256 :=
  if negb (HasKey256 km id f1 f2) then zero_array 32
  else default (zero_array 32) (s256_keys km !! MkKeyIndex id f1 f2).

(** [a[i]] and [a[i] = x] with a [size_t] index.  An index past the end is
    undefined behaviour in the source; no caller below produces one. *)
Definition aget {n} (a : array n) (i : nat) : u8 :=
  default x00 (vec_to_list a !! i).

Definition aset {n} (a : array n) (i : nat) (x : u8) : array n :=
  match decide (i < n) with
  | left H => vinsert (nat_to_fin H) x a
  | right _ => a
  end.

(** ** External collaborators *)

(** [core/crypto/aes_util.h]: the block cipher is an opaque capability.
    An [AESCipher<Key128>] built with [Mode::ECB] holds a copy of its key;
    [Transcode cipher src] is what
    [cipher.Transcode(src, n, dest, Op::Decrypt)] leaves in [dest]. *)
Class AESUtil := {
  Transcode : Key128 → ∀ {n}, array n → array n;
}.

(** [AESCipher<Key128> cipher(key, Mode::ECB)]. *)
Definition AESCipher (key : Key128) : Key128 := key.

(** [common/hex_util.h]. *)
Class HexUtil := {
  HexStringToArray : ∀ n, string → array n;
  HexArrayToString : ∀ {n}, array n → string;
}.

(** ** Binary files ([FileUtil::IOFile]) *)

(** Modelled from the spec: [common/file_util.h] is not among the sources;
    raw file access is "opaque byte-stream read/write with existence
    checks".  An open binary file is its contents; a file that failed to
    open is [None].  [GetSize] is the length. *)
Definition GetSize (file : list u8) : nat := length file.

(** The bytes [got] that a read delivered replace the front of the
    caller's buffer; the rest of the buffer keeps what it held. *)
Fixpoint overlay {n} (got : list u8) (buf : array n) : array n :=
  match buf in Vector.t _ n return array n with
  | vnil => vnil
  | vcons b buf' =>
      match got with
      | [] => vcons b buf'
      | g :: got' => vcons g (overlay got' buf')
      end
  end.

(** [file.Seek(offset, SEEK_SET); file.ReadBytes(buf.data(), n)]: as many
    of the [n] bytes as the file still has from [offset] on are copied to
    the buffer; the count of bytes read is returned with it. *)
Definition ReadBytes {n} (file : list u8) (offset : nat) (buf : array n)
  : array n * nat :=
  let got := take n (drop offset file) in
  (overlay got buf, length got).

(** ** Device seed discovery *)

(** The scanning loop of [DeriveSDSeed]:
    [for (; offset + 0x10 < save_43.GetSize(); ++offset)] with its [break].
    It returns the value of [offset] on exit.  [size_t] arithmetic cannot
    wrap here: [offset + 0x10] stays below the file size. *)
Equations? scan_save_43 (save_43 : list u8) (private_seed buffer : array 16)
    (offset : nat) : nat by wf (GetSize save_43 - offset) lt :=
  scan_save_43 save_43 private_seed buffer offset
    with decide (offset + 16 < GetSize save_43) => {
    | left _ =>
        let buffer := (ReadBytes save_43 offset buffer).1 in
        if bool_decide (buffer = private_seed) then offset
        else scan_save_43 save_43 private_seed buffer (S offset)
    | right _ => offset
    }.
Proof. lia. Qed.

(** [DeriveSDSeed], as a function of the two files it opens:
    [save_43] is [<nand>/system/save/8000000000000043] and [sd_private] is
    [<sdmc>/Nintendo/Contents/private]. *)
Definition DeriveSDSeed (save_43 sd_private : option (list u8))
  : option Key128 :=
  match save_43 with
  | None => None
  | Some save_43 =>
  match sd_private with
  | None => None
  | Some sd_private =>
      let private_seed := zero_array 16 in
      let '(private_seed, count) := ReadBytes sd_private 0 private_seed in
      if bool_decide (count ≠ 16) then None
      else
        let buffer := zero_array 16 in
        let offset := scan_save_43 save_43 private_seed buffer 0 in
        if bool_decide (GetSize save_43 ≤ offset + 16) then None
        else
          let seed := zero_array 16 in
          Some (ReadBytes save_43 (offset + 16) seed).1
  end
  end.

(** ** Derivation engine *)

Section Derivation.
Context `{AESUtil}.

(** [GenerateKeyEncryptionKey]: the local [out] is threaded through the
    three ciphers; each cipher copies its key when it is constructed. *)
Definition GenerateKeyEncryptionKey
    (source master kek_seed key_seed : Key128) : Key128 :=
  let out := zero_array 16 in
  let cipher1 := AESCipher master in
  let out := Transcode cipher1 kek_seed in
  let cipher2 := AESCipher out in
  let out := Transcode cipher2 source in
  if bool_decide (key_seed ≠ zero_array 16) then
    let cipher3 := AESCipher out in
    Transcode cipher3 key_seed
  else out.

(** [Loader::ResultStatus]: the enumerators that [DeriveSDKeys] returns. *)
Inductive ResultStatus :=
| Success
| ErrorMissingSDKEKSource
| ErrorMissingAESKEKGenerationSource
| ErrorMissingAESKeyGenerationSource
| ErrorMissingSDSeed
| ErrorMissingSDSaveKeySource
| ErrorMissingSDNCAKeySource.

(** One call that a derivation routine itself makes on its
    [const KeyManager&] argument. *)
Inductive access :=
| CallHasKey128 (index : KeyIndex S128KeyType)
| CallGetKey128 (index : KeyIndex S128KeyType)
| CallHasKey256 (index : KeyIndex S256KeyType)
| CallGetKey256 (index : KeyIndex S256KeyType).

(** A derivation step: the calls it made on the key store, in order, and
    either the status of an early [return] or its value. *)
Definition Deriv (A : Type) : Type := list access * (ResultStatus + A).

#[global] Instance Deriv_ret : MRet Deriv := λ A a, ([], inr a).

#[global] Instance Deriv_bind : MBind Deriv := λ A B f m,
  match m with
  | (calls, inl status) => (calls, inl status)
  | (calls, inr a) => let '(calls', r) := f a in (calls ++ calls', r)
  end.

(** [if (!cond) return status;] *)
Definition return_unless (cond : bool) (status : ResultStatus) : Deriv unit :=
  if cond then mret tt else ([], inl status).

Section StoreCalls.
Variable keys : KeyManager.

(** Modelled from the spec: the default [0] of the field arguments that a
    call leaves out is declared in [key_manager.h], which is not among the
    sources; the spec reads [GetKey(S128KeyType::Master)] as the
    generation-0 master key, [master_key_00] at [{Master, 0, 0}]. *)
Definition keys_HasKey128 id f1 f2 : Deriv bool :=
  ([CallHasKey128 (MkKeyIndex id f1 f2)], inr (HasKey128 keys id f1 f2)).
Definition keys_GetKey128 id f1 f2 : Deriv Key128 :=
  ([CallGetKey128 (MkKeyIndex id f1 f2)], inr (GetKey128 keys id f1 f2)).
Definition keys_HasKey256 id f1 f2 : Deriv bool :=
  ([CallHasKey256 (MkKeyIndex id f1 f2)], inr (HasKey256 keys id f1 f2)).
Definition keys_GetKey256 id f1 f2 : Deriv Key256 :=
  ([CallGetKey256 (MkKeyIndex id f1 f2)], inr (GetKey256 keys id f1 f2)).

End StoreCalls.

(** [for (size_t i = 0; i < source.size(); ++i) source[i] ^= sd_seed[i & 0xF];] *)
Definition combine_source_and_seed (source : Key256) (sd_seed : Key128)
  : Key256 :=
  foldl (λ source i,
           aset source i (u8_xor (aget source i) (aget sd_seed (Nat.land i 15))))
        source (seq 0 32).

(** The body of [DeriveSDKeys]; the value on success is what the final
    [std::transform] wrote to [sd_keys]. *)
Definition DeriveSDKeys_body (keys : KeyManager) : Deriv (Key256 * Key256) :=
  b ← keys_HasKey128 keys Source (SourceKeyType_u64 SDKEK) 0;
  return_unless b ErrorMissingSDKEKSource;;
  b ← keys_HasKey128 keys Source (SourceKeyType_u64 AESKEKGeneration) 0;
  return_unless b ErrorMissingAESKEKGenerationSource;;
  b ← keys_HasKey128 keys Source (SourceKeyType_u64 AESKeyGeneration) 0;
  return_unless b ErrorMissingAESKeyGenerationSource;;

  sd_kek_source ← keys_GetKey128 keys Source (SourceKeyType_u64 SDKEK) 0;
  aes_kek_gen ← keys_GetKey128 keys Source (SourceKeyType_u64 AESKEKGeneration) 0;
  aes_key_gen ← keys_GetKey128 keys Source (SourceKeyType_u64 AESKeyGeneration) 0;
  master_00 ← keys_GetKey128 keys Master 0 0;
  let sd_kek :=
    GenerateKeyEncryptionKey sd_kek_source master_00 aes_kek_gen aes_key_gen in

  b ← keys_HasKey128 keys SDSeed 0 0;
  return_unless b ErrorMissingSDSeed;;
  sd_seed ← keys_GetKey128 keys SDSeed 0 0;

  b ← keys_HasKey256 keys SDKeySource (SDKeyType_u64 Save) 0;
  return_unless b ErrorMissingSDSaveKeySource;;
  b ← keys_HasKey256 keys SDKeySource (SDKeyType_u64 NCA) 0;
  return_unless b ErrorMissingSDNCAKeySource;;

  source_save ← keys_GetKey256 keys SDKeySource (SDKeyType_u64 Save) 0;
  source_nca ← keys_GetKey256 keys SDKeySource (SDKeyType_u64 NCA) 0;

  let source_save := combine_source_and_seed source_save sd_seed in
  let source_nca := combine_source_and_seed source_nca sd_seed in

  let cipher := AESCipher sd_kek in
  mret (Transcode cipher source_save, Transcode cipher source_nca).

(** [DeriveSDKeys(sd_keys, keys)]: the status returned and the contents of
    the reference argument [sd_keys] afterwards (untouched on an early
    return). *)
Definition DeriveSDKeys (sd_keys : Key256 * Key256) (keys : KeyManager)
  : ResultStatus * (Key256 * Key256) :=
  match DeriveSDKeys_body keys with
  | (_, inl status) => (status, sd_keys)
  | (_, inr out) => (Success, out)
  end.

(** The calls [DeriveSDKeys] makes on the key store, in program order. *)
Definition DeriveSDKeys_calls (keys : KeyManager) : list access :=
  (DeriveSDKeys_body keys).1.

End Derivation.

(** ** Name table *)

(** [KeyManager::s128_file_id].  A [boost::container::flat_map] keeps its
    entries sorted by name, which is the order [std::find_if] visits them
    in; the entries are listed here in that order. *)
Definition s128_file_id : list (string * KeyIndex S128KeyType) := [
  ("aes_kek_generation_source",
     MkKeyIndex Source (SourceKeyType_u64 AESKEKGeneration) 0);
  ("aes_key_generation_source",
     MkKeyIndex Source (SourceKeyType_u64 AESKeyGeneration) 0);
  ("eticket_rsa_kek", MkKeyIndex ETicketRSAKek 0 0);
  ("key_area_key_application_00",
     MkKeyIndex KeyArea 0 (KeyAreaKeyType_u64 Application));
  ("key_area_key_application_01",
     MkKeyIndex KeyArea 1 (KeyAreaKeyType_u64 Application));
  ("key_area_key_application_02",
     MkKeyIndex KeyArea 2 (KeyAreaKeyType_u64 Application));
  ("key_area_key_application_03",
     MkKeyIndex KeyArea 3 (KeyAreaKeyType_u64 Application));
  ("key_area_key_application_04",
     MkKeyIndex KeyArea 4 (KeyAreaKeyType_u64 Application));
  ("key_area_key_ocean_00", MkKeyIndex KeyArea 0 (KeyAreaKeyType_u64 Ocean));
  ("key_area_key_ocean_01", MkKeyIndex KeyArea 1 (KeyAreaKeyType_u64 Ocean));
  ("key_area_key_ocean_02", MkKeyIndex KeyArea 2 (KeyAreaKeyType_u64 Ocean));
  ("key_area_key_ocean_03", MkKeyIndex KeyArea 3 (KeyAreaKeyType_u64 Ocean));
  ("key_area_key_ocean_04", MkKeyIndex KeyArea 4 (KeyAreaKeyType_u64 Ocean));
  ("key_area_key_system_00", MkKeyIndex KeyArea 0 (KeyAreaKeyType_u64 System));
  ("key_area_key_system_01", MkKeyIndex KeyArea 1 (KeyAreaKeyType_u64 System));
  ("key_area_key_system_02", MkKeyIndex KeyArea 2 (KeyAreaKeyType_u64 System));
  ("key_area_key_system_03", MkKeyIndex KeyArea 3 (KeyAreaKeyType_u64 System));
  ("key_area_key_system_04", MkKeyIndex KeyArea 4 (KeyAreaKeyType_u64 System));
  ("master_key_00", MkKeyIndex Master 0 0);
  ("master_key_01", MkKeyIndex Master 1 0);
  ("master_key_02", MkKeyIndex Master 2 0);
  ("master_key_03", MkKeyIndex Master 3 0);
  ("master_key_04", MkKeyIndex Master 4 0);
  ("package1_key_00", MkKeyIndex Package1 0 0);
  ("package1_key_01", MkKeyIndex Package1 1 0);
  ("package1_key_02", MkKeyIndex Package1 2 0);
  ("package1_key_03", MkKeyIndex Package1 3 0);
  ("package1_key_04", MkKeyIndex Package1 4 0);
  ("package2_key_00", MkKeyIndex Package2 0 0);
  ("package2_key_01", MkKeyIndex Package2 1 0);
  ("package2_key_02", MkKeyIndex Package2 2 0);
  ("package2_key_03", MkKeyIndex Package2 3 0);
  ("package2_key_04", MkKeyIndex Package2 4 0);
  ("sd_card_kek_source", MkKeyIndex Source (SourceKeyType_u64 SDKEK) 0);
  ("sd_seed", MkKeyIndex SDSeed 0 0);
  ("titlekek_00", MkKeyIndex Titlekek 0 0);
  ("titlekek_01", MkKeyIndex Titlekek 1 0);
  ("titlekek_02", MkKeyIndex Titlekek 2 0);
  ("titlekek_03", MkKeyIndex Titlekek 3 0);
  ("titlekek_04", MkKeyIndex Titlekek 4 0)
]%string.

(** [KeyManager::s256_file_id], in the same order. *)
Definition s256_file_id : list (string * KeyIndex S256KeyType) := [
  ("header_key", MkKeyIndex Header 0 0);
  ("sd_card_nca_key_source", MkKeyIndex SDKeySource (SDKeyType_u64 NCA) 0);
  ("sd_card_save_key_source", MkKeyIndex SDKeySource (SDKeyType_u64 Save) 0)
]%string.

(** [table.find(name)] followed by [table.at(name)]. *)
Definition file_id_find {K} (table : list (string * KeyIndex K)) (name : string)
  : option (KeyIndex K) :=
  snd <$> List.find (λ elem, bool_decide (elem.1 = name)) table.

(** [std::find_if] over the table for the entry whose index is
    [(id, field1, field2)]. *)
Definition file_id_find_if `{EqDecision K} (table : list (string * KeyIndex K))
    (id : K) (f1 f2 : u64) : option (string * KeyIndex K) :=
  List.find (λ elem,
      bool_decide ((type elem.2, field1 elem.2, field2 elem.2)
                   = (id, f1, f2))) table.

(** ** Text processing of the key file codec *)

(** [while (std::getline(stream, item, delim)) out.push_back(item);]
    [item] holds the characters extracted so far.  An extraction that
    meets the end of the stream before any character fails, so a stream
    that ends right after a delimiter yields no further (empty) piece. *)
Fixpoint getline_all (delim : ascii) (item : string) (stream : string)
  : list string :=
  match stream with
  | EmptyString => if bool_decide (item = EmptyString) then [] else [item]
  | String c stream' =>
      if bool_decide (c = delim) then item :: getline_all delim EmptyString stream'
      else getline_all delim (item +:+ String c EmptyString) stream'
  end.

(** [s.erase(std::remove(s.begin(), s.end(), c), s.end())]. *)
Fixpoint erase_remove (c : ascii) (s : string) : string :=
  match s with
  | EmptyString => EmptyString
  | String a s' =>
      if bool_decide (a = c) then erase_remove c s'
      else String a (erase_remove c s')
  end.

(** [::tolower] in the C locale. *)
Definition tolower (c : ascii) : ascii :=
  let n := N_of_ascii c in
  if bool_decide (65 ≤ n ∧ n ≤ 90)%N then ascii_of_N (n + 32) else c.

(** [std::transform(s.begin(), s.end(), s.begin(), ::tolower)]. *)
Fixpoint transform_tolower (s : string) : string :=
  match s with
  | EmptyString => EmptyString
  | String a s' => String (tolower a) (transform_tolower s')
  end.

Definition LF : ascii := ascii_of_nat 10.

(** ** Key file codec *)

(** The configuration and the host file system, as far as the key manager
    looks at them: [Settings::values.use_dev_keys], the two key
    directories, [DIR_SEP] of [common/common_paths.h], and whether a
    [std::ofstream] on a path opens. *)
Class Host := {
  use_dev_keys : bool;
  hactool_keys_dir : string;
  yuzu_keys_dir : string;
  DIR_SEP : string;
  ofstream_is_open : string → bool;
}.

(** What a method of [KeyManager] can read and change: the text files on
    disk, by path, and the object's own members. *)
Record World := MkWorld {
  files : gmap string string;
  keys : KeyManager;
}.

(** [FileUtil::Exists]. *)
Definition FileUtil_Exists (w : World) (path : string) : bool :=
  bool_decide (is_Some (files w !! path)).

(** [s128_keys[index] = key] and [s256_keys[index] = key]:
    [std::map::operator[]] followed by assignment. *)
Definition assign128 (index : KeyIndex S128KeyType) (key : Key128)
    (km : KeyManager) : KeyManager :=
  MkKeyManager (dev_mode km) (<[index := key]> (s128_keys km)) (s256_keys km).

Definition assign256 (index : KeyIndex S256KeyType) (key : Key256)
    (km : KeyManager) : KeyManager :=
  MkKeyManager (dev_mode km) (s128_keys km) (<[index := key]> (s256_keys km)).

(** [u128 rights_id; std::memcpy(rights_id.data(), raw.data(), raw.size())]:
    [u128] is [std::array<u64, 2>]; the pair is [(rights_id[0], rights_id[1])]. *)
Definition memcpy_u128 (raw : Key128) : u64 * u64 :=
  (le_to_N (take 8 (vec_to_list raw)),
   le_to_N (take 8 (drop 8 (vec_to_list raw)))).

(** [Key128 rights_id; std::memcpy(rights_id.data(), &lo, sizeof(u64));
    std::memcpy(rights_id.data() + sizeof(u64), &hi, sizeof(u64))]. *)
Definition memcpy_Key128 (lo hi : u64) : Key128 :=
  vapp (N_to_le 8 lo) (N_to_le 8 hi).

Section Codec.
Context `{HexUtil} `{Host}.

(** The body of the [while (std::getline(file, line))] loop of
    [KeyManager::LoadFromFile]. *)
Definition LoadFromFile_line (is_title_keys : bool) (km : KeyManager)
    (line : string) : KeyManager :=
  let out := getline_all "=" EmptyString line in
  match out with
  | [out0; out1] =>
      let out0 := erase_remove " " out0 in
      let out1 := erase_remove " " out1 in
      if is_title_keys then
        let rights_id_raw := HexStringToArray 16 out0 in
        let rights_id := memcpy_u128 rights_id_raw in
        let key := HexStringToArray 16 out1 in
        assign128 (MkKeyIndex Titlekey rights_id.2 rights_id.1) key km
      else
        let out0 := transform_tolower out0 in
        match file_id_find s128_file_id out0 with
        | Some index =>
            let key := HexStringToArray 16 out1 in
            assign128 (MkKeyIndex (type index) (field1 index) (field2 index))
                      key km
        | None =>
            match file_id_find s256_file_id out0 with
            | Some index =>
                let key := HexStringToArray 32 out1 in
                assign256 (MkKeyIndex (type index) (field1 index) (field2 index))
                          key km
            | None => km
            end
        end
  | _ => km
  end.

(** [KeyManager::LoadFromFile]. *)
Definition LoadFromFile (filename : string) (is_title_keys : bool) (w : World)
  : World :=
  match files w !! filename with
  | None => w
  | Some file =>
      MkWorld (files w)
              (foldl (LoadFromFile_line is_title_keys) (keys w)
                     (getline_all LF EmptyString file))
  end.

(** [KeyManager::AttemptLoadKeyFile]. *)
Definition AttemptLoadKeyFile (dir1 dir2 filename : string) (title : bool)
    (w : World) : World :=
  if FileUtil_Exists w (dir1 +:+ DIR_SEP +:+ filename) then
    LoadFromFile (dir1 +:+ DIR_SEP +:+ filename) title w
  else if FileUtil_Exists w (dir2 +:+ DIR_SEP +:+ filename) then
    LoadFromFile (dir2 +:+ DIR_SEP +:+ filename) title w
  else w.

(** [KeyManager::KeyManager()]: both maps start empty. *)
Definition KeyManager_new (disk : gmap string string) : World :=
  let w := MkWorld disk (MkKeyManager false ∅ ∅) in
  let w :=
    if use_dev_keys then
      let w := MkWorld (files w)
                 (MkKeyManager true (s128_keys (keys w)) (s256_keys (keys w))) in
      let w := AttemptLoadKeyFile yuzu_keys_dir hactool_keys_dir "dev.keys" false w in
      AttemptLoadKeyFile yuzu_keys_dir yuzu_keys_dir "dev.keys_autogenerated" false w
    else
      let w := MkWorld (files w)
                 (MkKeyManager false (s128_keys (keys w)) (s256_keys (keys w))) in
      let w := AttemptLoadKeyFile yuzu_keys_dir hactool_keys_dir "prod.keys" false w in
      AttemptLoadKeyFile yuzu_keys_dir yuzu_keys_dir "prod.keys_autogenerated" false w
  in
  let w := AttemptLoadKeyFile yuzu_keys_dir hactool_keys_dir "title.keys" true w in
  AttemptLoadKeyFile yuzu_keys_dir yuzu_keys_dir "title.keys_autogenerated" true w.

(** The comment block that starts a new autogenerated file. *)
Definition info_text : string :=
  "# This file is autogenerated by Yuzu" +:+ String LF
  "# It serves to store keys that were automatically generated from the normal keys"
  +:+ String LF
  "# If you are experiencing issues involving keys, it may help to delete this file"
  +:+ String LF EmptyString.

(** [fmt::format("\n{} = {}", keyname, Common::HexArrayToString(key))]. *)
Definition key_line {n} (keyname : string) (key : array n) : string :=
  String LF keyname +:+ " = " +:+ HexArrayToString key.

(** [KeyManager::WriteKeyToFile].  [FileUtil::CreateFullPath] makes
    directories only.  The text sent to the stream is taken as appended to
    the file at the [<<]. *)
Definition WriteKeyToFile {n} (title_key : bool) (keyname : string)
    (key : array n) (w : World) : World :=
  let filename := "title.keys_autogenerated" in
  let filename :=
    if negb title_key then
      if dev_mode (keys w) then "dev.keys_autogenerated"
      else "prod.keys_autogenerated"
    else filename in
  let path := yuzu_keys_dir +:+ DIR_SEP +:+ filename in
  let add_info_text := negb (FileUtil_Exists w path) in
  if negb (ofstream_is_open path) then w
  else
    let file := default EmptyString (files w !! path) in
    let file := if add_info_text then file +:+ info_text else file in
    let file := file +:+ key_line keyname key in
    let w := MkWorld (<[path := file]> (files w)) (keys w) in
    AttemptLoadKeyFile yuzu_keys_dir yuzu_keys_dir filename title_key w.

(** [KeyManager::SetKey(S128KeyType, Key128, u64, u64)]. *)
Definition SetKey128 (id : S128KeyType) (key : Key128) (f1 f2 : u64)
    (w : World) : World :=
  if bool_decide (is_Some (s128_keys (keys w) !! MkKeyIndex id f1 f2)) then w
  else
    let w :=
      if bool_decide (id = Titlekey) then
        let rights_id := memcpy_Key128 f2 f1 in
        WriteKeyToFile true (HexArrayToString rights_id) key w
      else w in
    let iter2 := file_id_find_if s128_file_id id f1 f2 in
    let w :=
      match iter2 with
      | Some elem => WriteKeyToFile false elem.1 key w
      | None => w
      end in
    MkWorld (files w) (assign128 (MkKeyIndex id f1 f2) key (keys w)).

(** [KeyManager::SetKey(S256KeyType, Key256, u64, u64)]. *)
Definition SetKey256 (id : S256KeyType) (key : Key256) (f1 f2 : u64)
    (w : World) : World :=
  if bool_decide (is_Some (s256_keys (keys w) !! MkKeyIndex id f1 f2)) then w
  else
    let iter := file_id_find_if s256_file_id id f1 f2 in
    let w :=
      match iter with
      | Some elem => WriteKeyToFile false elem.1 key w
      | None => w
      end in
    MkWorld (files w) (assign256 (MkKeyIndex id f1 f2) key (keys w)).

(** [KeyManager::DeriveSDSeedLazy], given the two files [DeriveSDSeed]
    opens. *)
Definition DeriveSDSeedLazy (save_43 sd_private : option (list u8))
    (w : World) : World :=
  if HasKey128 (keys w) SDSeed 0 0 then w
  else
    match DeriveSDSeed save_43 sd_private with
    | Some res => SetKey128 SDSeed res 0 0 w
    | None => w
    end.

(** [KeyManager::KeyFileExists]. *)
Definition KeyFileExists (title : bool) (w : World) : bool :=
  if title then
    FileUtil_Exists w (hactool_keys_dir +:+ DIR_SEP +:+ "title.keys")
    || FileUtil_Exists w (yuzu_keys_dir +:+ DIR_SEP +:+ "title.keys")
  else if use_dev_keys then
    FileUtil_Exists w (hactool_keys_dir +:+ DIR_SEP +:+ "dev.keys")
    || FileUtil_Exists w (yuzu_keys_dir +:+ DIR_SEP +:+ "dev.keys")
  else
    FileUtil_Exists w (hactool_keys_dir +:+ DIR_SEP +:+ "prod.keys")
    || FileUtil_Exists w (yuzu_keys_dir +:+ DIR_SEP +:+ "prod.keys").

End Codec.

(** ** Reference collaborators for worked examples *)

(** A plain hexadecimal codec: two digits per byte, high nibble first,
    upper-case digits on output. *)
Definition hex_nibble (c : ascii) : N :=
  let n := N_of_ascii c in
  if bool_decide (48 ≤ n ∧ n ≤ 57)%N then (n - 48)%N
  else if bool_decide (97 ≤ n ∧ n ≤ 102)%N then (n - 87)%N
  else if bool_decide (65 ≤ n ∧ n ≤ 70)%N then (n - 55)%N
  else 0%N.

Fixpoint hex_to_array (n : nat) (s : string) : array n :=
  match n with
  | O => vnil
  | S n' =>
      match s with
      | String hi (String lo s') =>
          vcons (u8_of_N (16 * hex_nibble hi + hex_nibble lo))
                (hex_to_array n' s')
      | _ => vcons x00 (hex_to_array n' EmptyString)
      end
  end.

Definition hex_digit (n : N) : ascii :=
  if bool_decide (n < 10)%N then ascii_of_N (n + 48) else ascii_of_N (n + 55).

Definition array_to_hex {n} (a : array n) : string :=
  foldr (λ b s, String (hex_digit (Byte.to_N b / 16))
                  (String (hex_digit (Byte.to_N b mod 16)) s))
        EmptyString (vec_to_list a).

Definition reference_hex : HexUtil :=
  {| HexStringToArray := hex_to_array; HexArrayToString := @array_to_hex |}.

(** A stand-in for the block cipher (it is not AES): every byte of the
    data is XORed with the first byte of the key. *)
Definition standin_cipher : AESUtil :=
  {| Transcode := λ key n src,
       vmap (λ b, u8_xor b (aget key 0)) src |}.

Definition example_host : Host :=
  {| use_dev_keys := false;
     hactool_keys_dir := "/home/user/.switch";
     yuzu_keys_dir := "/home/user/.local/share/yuzu/keys";
     DIR_SEP := "/";
     ofstream_is_open := λ _, true |}.

(** ** Specification-side definitions *)

(** The unwrap chain in the words of the specification: one "unwrap" is an
    ECB decrypt of a buffer under a freshly keyed cipher. *)
Definition unwrap `{AESUtil} {n} (key : Key128) (data : array n) : array n :=
  Transcode (AESCipher key) data.

Definition Derive_spec `{AESUtil} (source masterKey kekSeed keySeed : Key128)
  : Key128 :=
  let intermediate1 := unwrap masterKey kekSeed in
  let intermediate2 := unwrap intermediate1 source in
  if decide (keySeed = zero_array 16) then intermediate2
  else unwrap intermediate2 keySeed.

(** The six operands [DeriveSDKeys] requires, in the order the
    specification lists them. *)
Inductive Operand :=
| OpSDKEKSource
| OpAESKEKGenerationSource
| OpAESKeyGenerationSource
| OpSDSeed
| OpSDSaveKeySource
| OpSDNCAKeySource.

#[global] Instance Operand_eq_dec : EqDecision Operand.
Proof. solve_decision. Defined.

Definition operands : list Operand :=
  [OpSDKEKSource; OpAESKEKGenerationSource; OpAESKeyGenerationSource;
   OpSDSeed; OpSDSaveKeySource; OpSDNCAKeySource].

Definition operand_present (keys : KeyManager) (op : Operand) : bool :=
  match op with
  | OpSDKEKSource => HasKey128 keys Source (SourceKeyType_u64 SDKEK) 0
  | OpAESKEKGenerationSource =>
      HasKey128 keys Source (SourceKeyType_u64 AESKEKGeneration) 0
  | OpAESKeyGenerationSource =>
      HasKey128 keys Source (SourceKeyType_u64 AESKeyGeneration) 0
  | OpSDSeed => HasKey128 keys SDSeed 0 0
  | OpSDSaveKeySource => HasKey256 keys SDKeySource (SDKeyType_u64 Save) 0
  | OpSDNCAKeySource => HasKey256 keys SDKeySource (SDKeyType_u64 NCA) 0
  end.

(** The status that names an operand as missing. *)
Definition missing_status (op : Operand) : ResultStatus :=
  match op with
  | OpSDKEKSource => ErrorMissingSDKEKSource
  | OpAESKEKGenerationSource => ErrorMissingAESKEKGenerationSource
  | OpAESKeyGenerationSource => ErrorMissingAESKeyGenerationSource
  | OpSDSeed => ErrorMissingSDSeed
  | OpSDSaveKeySource => ErrorMissingSDSaveKeySource
  | OpSDNCAKeySource => ErrorMissingSDNCAKeySource
  end.

(** The first operand, in precedence order, that the store lacks. *)
Definition first_missing (keys : KeyManager) : option Operand :=
  List.find (λ op, negb (operand_present keys op)) operands.

(** "XOR every byte [i] with [seed[i mod 16]]". *)
Definition xor_with_repeated_seed (source : Key256) (seed : Key128)
  : list u8 :=
  imap (λ i b, u8_xor b (aget seed (i mod 16))) (vec_to_list source).

(** [sdKEK = Derive(sdKekSource, master_generation_0, aesKekGenSource,
    aesKeyGenSource)], read from the store. *)
Definition sd_kek_of `{AESUtil} (keys : KeyManager) : Key128 :=
  Derive_spec (GetKey128 keys Source (SourceKeyType_u64 SDKEK) 0)
              (GetKey128 keys Master 0 0)
              (GetKey128 keys Source (SourceKeyType_u64 AESKEKGeneration) 0)
              (GetKey128 keys Source (SourceKeyType_u64 AESKeyGeneration) 0).

#[global] Instance access_eq_dec : EqDecision access.
Proof. solve_decision. Defined.

(** The [GetKey] calls of a call sequence that no earlier [HasKey] call on
    the same index precedes; [seen] holds the calls already made. *)
Fixpoint unchecked_gets (seen calls : list access) : list access :=
  match calls with
  | [] => []
  | c :: calls' =>
      let rest := unchecked_gets (c :: seen) calls' in
      match c with
      | CallGetKey128 i =>
          if bool_decide (CallHasKey128 i ∈ seen) then rest else c :: rest
      | CallGetKey256 i =>
          if bool_decide (CallHasKey256 i ∈ seen) then rest else c :: rest
      | _ => rest
      end
  end.

(** A store that holds the six required operands and the generation-0
    master key, and the same store without the master key. *)
Definition operands_only : KeyManager :=
  MkKeyManager false
    {[ MkKeyIndex Source (SourceKeyType_u64 SDKEK) 0 :=
         hex_to_array 16 "88358D9C629BA1A00147DBE0621B5432";
       MkKeyIndex Source (SourceKeyType_u64 AESKEKGeneration) 0 :=
         hex_to_array 16 "4D870986C45D20722FBA1053DA92E8A9";
       MkKeyIndex Source (SourceKeyType_u64 AESKeyGeneration) 0 :=
         hex_to_array 16 "89615EE05C31B6805FE58F3DA24F7AA8";
       MkKeyIndex SDSeed 0 0 :=
         hex_to_array 16 "000102030405060708090A0B0C0D0E0F" ]}
    {[ MkKeyIndex SDKeySource (SDKeyType_u64 Save) 0 :=
         hex_to_array 32
           "2449B722726703A81965E6E3EA582FDD9A951517B16E8F7F1F68263152EA296A";
       MkKeyIndex SDKeySource (SDKeyType_u64 NCA) 0 :=
         hex_to_array 32
           "5841A284935B56278B8E1FC518E99F2B67C793F0F24FDED075495DCA006D99C2" ]}.

Definition operands_and_master : KeyManager :=
  assign128 (MkKeyIndex Master 0 0)
            (hex_to_array 16 "C2CAAFF089B9AED55694876055271C7D")
            operands_only.

(** The 16-byte window of a save file at an offset equals the marker. *)
Definition marker_at (save_43 : list u8) (marker : Key128) (offset : nat)
  : Prop :=
  take 16 (drop offset save_43) = vec_to_list marker.

#[global] Instance marker_at_dec save_43 marker offset :
  Decision (marker_at save_43 marker offset).
Proof. unfold marker_at. apply _. Defined.

(** A marker, and a save file that consists of the marker and one more
    byte. *)
Definition example_marker : list u8 :=
  vec_to_list (hex_to_array 16 "A1B2C3D4E5F60718293A4B5C6D7E8F90").

Definition save_with_one_trailing_byte : list u8 :=
  example_marker ++ [x63].

(** Every character of a string satisfies a test. *)
Fixpoint string_forall (P : ascii → bool) (s : string) : bool :=
  match s with
  | EmptyString => true
  | String c s' => P c && string_forall P s'
  end.

Definition is_hex_digit (c : ascii) : bool :=
  let n := N_of_ascii c in
  bool_decide ((48 ≤ n ∧ n ≤ 57) ∨ (65 ≤ n ∧ n ≤ 70) ∨ (97 ≤ n ∧ n ≤ 102))%N.

(** A string of exactly [len] hexadecimal digits. *)
Definition is_hex_string (len : nat) (s : string) : bool :=
  bool_decide (String.length s = len) && string_forall is_hex_digit s.

Section LineEntries.
Context `{HexUtil}.

(** The pieces of a line the codec works with: [None] unless the line
    splits at [=] into exactly two pieces; spaces are stripped. *)
Definition line_pieces (line : string) : option (string * string) :=
  match getline_all "=" EmptyString line with
  | [name; value] => Some (erase_remove " " name, erase_remove " " value)
  | _ => None
  end.

(** The index and value that a key-file line provides for the 128-bit
    store, if any. *)
Definition line_entry128 (is_title_keys : bool) (line : string)
  : option (KeyIndex S128KeyType * Key128) :=
  '(name, value) ← line_pieces line;
  if is_title_keys then
    let rights_id := memcpy_u128 (HexStringToArray 16 name) in
    Some (MkKeyIndex Titlekey rights_id.2 rights_id.1,
          HexStringToArray 16 value)
  else
    index ← file_id_find s128_file_id (transform_tolower name);
    Some (index, HexStringToArray 16 value).

(** The same for the 256-bit store; the 128-bit table is consulted first. *)
Definition line_entry256 (is_title_keys : bool) (line : string)
  : option (KeyIndex S256KeyType * Key256) :=
  '(name, value) ← line_pieces line;
  if is_title_keys then None
  else
    match file_id_find s128_file_id (transform_tolower name) with
    | Some _ => None
    | None =>
        index ← file_id_find s256_file_id (transform_tolower name);
        Some (index, HexStringToArray 32 value)
    end.

(** The value of the last entry for [index] in a sequence of entries. *)
Definition last_value {K V} `{EqDecision K}
    (entries : list (option (K * V))) (index : K) : option V :=
  foldl (λ acc entry,
           match entry with
           | Some (i, v) => if decide (i = index) then Some v else acc
           | None => acc
           end) None entries.

(** The value a key file provides for an index: that of its last line
    that resolves to the index. *)
Definition file_value128 (is_title_keys : bool) (file : string)
    (index : KeyIndex S128KeyType) : option Key128 :=
  last_value (line_entry128 is_title_keys <$> getline_all LF EmptyString file)
             index.

Definition file_value256 (is_title_keys : bool) (file : string)
    (index : KeyIndex S256KeyType) : option Key256 :=
  last_value (line_entry256 is_title_keys <$> getline_all LF EmptyString file)
             index.

End LineEntries.

(** A base key file and an autogenerated key file that both give a value
    for [master_key_00]. *)
Definition base_disk : gmap string string :=
  {[ "/home/user/.local/share/yuzu/keys/prod.keys"%string :=
       "master_key_00 = C2CAAFF089B9AED55694876055271C7D"%string ]}.

Definition base_and_autogenerated_disk : gmap string string :=
  <[ "/home/user/.local/share/yuzu/keys/prod.keys_autogenerated"%string :=
       "master_key_00 = 11111111111111111111111111111111"%string ]>
  base_disk.

(** A rights identifier and a title key, as they appear in [title.keys],
    and a key manager that has loaded nothing. *)
Definition example_rights_id : string := "01006A800016E0000000000000000002".
Definition example_title_key : string := "1EDC7E6A3B2F0C5D4E9180A7B6C5D4E3".

Definition empty_world : World := MkWorld ∅ (MkKeyManager false ∅ ∅).

(** A save file with 3 bytes, the marker, a 16-byte seed and 2 more
    bytes. *)
Definition save_with_seed : list u8 :=
  [x00; x01; x02] ++ example_marker
  ++ vec_to_list (hex_to_array 16 "00112233445566778899AABBCCDDEEFF")
  ++ [x7f; x7e].

(** *** Sequences of operations on a key manager *)

(** The operations that change a key manager after it is built, and the
    two loading steps its constructor is made of. *)
Inductive operation :=
| OpLoadFromFile (filename : string) (is_title_keys : bool)
| OpAttemptLoadKeyFile (dir1 dir2 filename : string) (title : bool)
| OpSetKey128 (id : S128KeyType) (key : Key128) (f1 f2 : u64)
| OpSetKey256 (id : S256KeyType) (key : Key256) (f1 f2 : u64)
| OpDeriveSDSeedLazy (save_43 sd_private : option (list u8)).

Section Operations.
Context `{HexUtil} `{Host}.

Definition run_operation (w : World) (op : operation) : World :=
  match op with
  | OpLoadFromFile filename is_title_keys =>
      LoadFromFile filename is_title_keys w
  | OpAttemptLoadKeyFile dir1 dir2 filename title =>
      AttemptLoadKeyFile dir1 dir2 filename title w
  | OpSetKey128 id key f1 f2 => SetKey128 id key f1 f2 w
  | OpSetKey256 id key f1 f2 => SetKey256 id key f1 f2 w
  | OpDeriveSDSeedLazy save_43 sd_private =>
      DeriveSDSeedLazy save_43 sd_private w
  end.

Definition run_operations (ops : list operation) (w : World) : World :=
  foldl run_operation w ops.

(** The path of an autogenerated key file. *)
Definition autogenerated_path (filename : string) : string :=
  yuzu_keys_dir +:+ DIR_SEP +:+ filename.

(** The three files [WriteKeyToFile] can write to. *)
Definition autogenerated_paths : list string :=
  [autogenerated_path "title.keys_autogenerated";
   autogenerated_path "dev.keys_autogenerated";
   autogenerated_path "prod.keys_autogenerated"].

(** The base key file and the autogenerated key file of the key-set mode
    in force. *)
Definition base_key_file : string :=
  if use_dev_keys then "dev.keys" else "prod.keys".

Definition autogenerated_key_file : string :=
  if use_dev_keys then "dev.keys_autogenerated" else "prod.keys_autogenerated".

(** The file [WriteKeyToFile] writes to. *)
Definition WriteKeyToFile_path (title_key : bool) (w : World) : string :=
  autogenerated_path
    (if title_key then "title.keys_autogenerated"
     else if dev_mode (keys w) then "dev.keys_autogenerated"
     else "prod.keys_autogenerated").

End Operations.

(** No key present in [km] is missing from [km'], and the key-set mode is
    the same. *)
Definition keys_kept (km km' : KeyManager) : Prop :=
  dev_mode km' = dev_mode km ∧
  (∀ i, is_Some (s128_keys km !! i) → is_Some (s128_keys km' !! i)) ∧
  (∀ i, is_Some (s256_keys km !! i) → is_Some (s256_keys km' !! i)).

(** Every file of [fs] is still in [fs'], with its old contents at the
    front. *)
Definition files_extended (fs fs' : gmap string string) : Prop :=
  ∀ path old, fs !! path = Some old →
    ∃ suffix, fs' !! path = Some (old +:+ suffix).

(** Files change by appending only, and only the autogenerated ones. *)
Definition files_appended `{Host} (fs fs' : gmap string string) : Prop :=
  files_extended fs fs' ∧
  ∀ path, path ∉ autogenerated_paths → fs' !! path = fs !! path.

(** The indices that have a name in the tables. *)
Definition named128 : list (KeyIndex S128KeyType) := snd <$> s128_file_id.
Definition named256 : list (KeyIndex S256KeyType) := snd <$> s256_file_id.

(** Every occupied slot is a title-key slot or one that has a name. *)
Definition slots_known (km : KeyManager) : Prop :=
  (∀ i, is_Some (s128_keys km !! i) → type i = Titlekey ∨ i ∈ named128) ∧
  (∀ i, is_Some (s256_keys km !! i) → i ∈ named256).

(** A character that is neither the [=] separator nor a space. *)
Definition not_separator (c : ascii) : bool :=
  negb (bool_decide (c = "="%char)) && negb (bool_decide (c = " "%char)).

(** The indices [DeriveSDKeys] looks at. *)
Definition DeriveSDKeys_reads128 : list (KeyIndex S128KeyType) :=
  [MkKeyIndex Source (SourceKeyType_u64 SDKEK) 0;
   MkKeyIndex Source (SourceKeyType_u64 AESKEKGeneration) 0;
   MkKeyIndex Source (SourceKeyType_u64 AESKeyGeneration) 0;
   MkKeyIndex Master 0 0;
   MkKeyIndex SDSeed 0 0].

Definition DeriveSDKeys_reads256 : list (KeyIndex S256KeyType) :=
  [MkKeyIndex SDKeySource (SDKeyType_u64 Save) 0;
   MkKeyIndex SDKeySource (SDKeyType_u64 NCA) 0].

(** A host on which no file can be opened for writing. *)
Definition readonly_host : Host :=
  {| use_dev_keys := false;
     hactool_keys_dir := "/home/user/.switch";
     yuzu_keys_dir := "/home/user/.local/share/yuzu/keys";
     DIR_SEP := "/";
     ofstream_is_open := λ _, false |}.

(** A key manager with the base key file on disk and the six operands and
    the master key in memory, and a few operations to run on it. *)
Definition loaded_world : World := MkWorld base_disk operands_and_master.

Definition example_operations : list operation :=
  [OpSetKey128 Titlekek (hex_to_array 16 "000102030405060708090A0B0C0D0E0F") 0 0;
   OpLoadFromFile "/home/user/.local/share/yuzu/keys/prod.keys" false;
   OpDeriveSDSeedLazy (Some save_with_seed) (Some example_marker);
   OpSetKey256 Header (zero_array 32) 0 0].

(** A disk whose autogenerated file holds the comment block only. *)
Definition header_only_disk : gmap string string :=
  {[ "/home/user/.local/share/yuzu/keys/prod.keys_autogenerated"%string :=
       info_text ]}.

(** The six operands without the seed. *)
Definition operands_without_seed : KeyManager :=
  MkKeyManager false
    (delete (MkKeyIndex SDSeed 0 0) (s128_keys operands_and_master))
    (s256_keys operands_and_master).

(** ** Properties of the key store *)

Section StoreProperties.
Context `{HexUtil} `{Host}.

Lemma HasKey128_spec km id f1 f2 :
  HasKey128 km id f1 f2 = true ↔ is_Some (s128_keys km !! MkKeyIndex id f1 f2).
Proof. unfold HasKey128. by rewrite bool_decide_eq_true. Qed.

Lemma HasKey256_spec km id f1 f2 :
  HasKey256 km id f1 f2 = true ↔ is_Some (s256_keys km !! MkKeyIndex id f1 f2).
Proof. unfold HasKey256. by rewrite bool_decide_eq_true. Qed.

Lemma GetKey128_present km id f1 f2 key :
  s128_keys km !! MkKeyIndex id f1 f2 = Some key → GetKey128 km id f1 f2 = key.
Proof.
  intros Hk. unfold GetKey128, HasKey128. rewrite Hk.
  rewrite bool_decide_eq_true_2 by eauto. done.
Qed.

Lemma GetKey256_present km id f1 f2 key :
  s256_keys km !! MkKeyIndex id f1 f2 = Some key → GetKey256 km id f1 f2 = key.
Proof.
  intros Hk. unfold GetKey256, HasKey256. rewrite Hk.
  rewrite bool_decide_eq_true_2 by eauto. done.
Qed.

Lemma SetKey128_occupied id key f1 f2 w :
  is_Some (s128_keys (keys w) !! MkKeyIndex id f1 f2) →
  SetKey128 id key f1 f2 w = w.
Proof. intros Hocc. unfold SetKey128. by rewrite bool_decide_eq_true_2. Qed.

Lemma SetKey256_occupied id key f1 f2 w :
  is_Some (s256_keys (keys w) !! MkKeyIndex id f1 f2) →
  SetKey256 id key f1 f2 w = w.
Proof. intros Hocc. unfold SetKey256. by rewrite bool_decide_eq_true_2. Qed.

(** C10. For an index that is not in the store, [GetKey] returns the
    all-zero array of the store's width (16 bytes for the 128-bit store,
    32 bytes for the 256-bit store) and [HasKey] returns false. *)
Theorem GetKey_absent_zero_HasKey_false (km : KeyManager) :
  (∀ id f1 f2,
     s128_keys km !! MkKeyIndex id f1 f2 = None →
     vec_to_list (GetKey128 km id f1 f2) = replicate 16 x00 ∧
     HasKey128 km id f1 f2 = false) ∧
  (∀ id f1 f2,
     s256_keys km !! MkKeyIndex id f1 f2 = None →
     vec_to_list (GetKey256 km id f1 f2) = replicate 32 x00 ∧
     HasKey256 km id f1 f2 = false).
Proof.
  split; intros id f1 f2 Habsent.
  - assert (HasKey128 km id f1 f2 = false) as Hhas.
    { unfold HasKey128. rewrite Habsent. apply bool_decide_eq_false_2.
      by intros [? ?]. }
    split; [|done]. unfold GetKey128. rewrite Hhas.
    exact (vec_to_list_replicate 16 x00).
  - assert (HasKey256 km id f1 f2 = false) as Hhas.
    { unfold HasKey256. rewrite Habsent. apply bool_decide_eq_false_2.
      by intros [? ?]. }
    split; [|done]. unfold GetKey256. rewrite Hhas.
    exact (vec_to_list_replicate 32 x00).
Qed.

(** C9. [SetKey] on an index that already holds a value changes nothing,
    neither the store nor the files, so the value stored first stays; this
    holds for the 128-bit and for the 256-bit store. *)
Theorem SetKey_occupied_is_noop (w : World) :
  (∀ id f1 f2 first second,
     s128_keys (keys w) !! MkKeyIndex id f1 f2 = Some first →
     SetKey128 id second f1 f2 w = w ∧
     s128_keys (keys (SetKey128 id second f1 f2 w)) !! MkKeyIndex id f1 f2
       = Some first) ∧
  (∀ id f1 f2 first second,
     s256_keys (keys w) !! MkKeyIndex id f1 f2 = Some first →
     SetKey256 id second f1 f2 w = w ∧
     s256_keys (keys (SetKey256 id second f1 f2 w)) !! MkKeyIndex id f1 f2
       = Some first).
Proof.
  split; intros id f1 f2 first second Hfirst.
  - rewrite SetKey128_occupied by eauto. done.
  - rewrite SetKey256_occupied by eauto. done.
Qed.

Lemma KeyIndex_eta {K} (index : KeyIndex K) :
  MkKeyIndex (type index) (field1 index) (field2 index) = index.
Proof. by destruct index. Qed.

(** A line changes the 128-bit store by one unconditional assignment, or
    not at all. *)
Lemma LoadFromFile_line_s128 is_title_keys km line :
  s128_keys (LoadFromFile_line is_title_keys km line) =
  match line_entry128 is_title_keys line with
  | Some (index, key) => <[index := key]> (s128_keys km)
  | None => s128_keys km
  end.
Proof.
  unfold LoadFromFile_line, line_entry128, line_pieces.
  destruct (getline_all "=" EmptyString line) as [|out0 [|out1 [|? ?]]];
    try done.
  cbn [mbind option_bind]. destruct is_title_keys; [done|].
  destruct (file_id_find s128_file_id _) as [index|];
    cbn [mbind option_bind assign128 s128_keys].
  - by rewrite KeyIndex_eta.
  - by destruct (file_id_find s256_file_id _).
Qed.

Lemma LoadFromFile_line_s256 is_title_keys km line :
  s256_keys (LoadFromFile_line is_title_keys km line) =
  match line_entry256 is_title_keys line with
  | Some (index, key) => <[index := key]> (s256_keys km)
  | None => s256_keys km
  end.
Proof.
  unfold LoadFromFile_line, line_entry256, line_pieces.
  destruct (getline_all "=" EmptyString line) as [|out0 [|out1 [|? ?]]];
    try done.
  cbn [mbind option_bind]. destruct is_title_keys; [done|].
  destruct (file_id_find s128_file_id _) as [index|]; [done|].
  destruct (file_id_find s256_file_id _) as [index|];
    cbn [mbind option_bind assign256 s256_keys]; [|done].
  by rewrite KeyIndex_eta.
Qed.

Lemma LoadFromFile_lines_s128 is_title_keys km lines index :
  s128_keys (foldl (LoadFromFile_line is_title_keys) km lines) !! index =
  match last_value (line_entry128 is_title_keys <$> lines) index with
  | Some key => Some key
  | None => s128_keys km !! index
  end.
Proof.
  induction lines as [|line lines IH] using rev_ind; [done|].
  unfold last_value in *.
  rewrite fmap_app, !foldl_app. cbn [foldl fmap list_fmap].
  rewrite LoadFromFile_line_s128.
  destruct (line_entry128 is_title_keys line) as [[i key]|]; [|done].
  rewrite lookup_insert. destruct (decide (i = index)); done.
Qed.

Lemma LoadFromFile_lines_s256 is_title_keys km lines index :
  s256_keys (foldl (LoadFromFile_line is_title_keys) km lines) !! index =
  match last_value (line_entry256 is_title_keys <$> lines) index with
  | Some key => Some key
  | None => s256_keys km !! index
  end.
Proof.
  induction lines as [|line lines IH] using rev_ind; [done|].
  unfold last_value in *.
  rewrite fmap_app, !foldl_app. cbn [foldl fmap list_fmap].
  rewrite LoadFromFile_line_s256.
  destruct (line_entry256 is_title_keys line) as [[i key]|]; [|done].
  rewrite lookup_insert. destruct (decide (i = index)); done.
Qed.

Lemma LoadFromFile_files filename is_title_keys w :
  files (LoadFromFile filename is_title_keys w) = files w.
Proof. unfold LoadFromFile. by destruct (files w !! filename). Qed.

(** What [LoadFromFile] leaves at an index of either store. *)
Lemma LoadFromFile_s128 filename is_title_keys w index :
  s128_keys (keys (LoadFromFile filename is_title_keys w)) !! index =
  match files w !! filename with
  | Some file =>
      match file_value128 is_title_keys file index with
      | Some key => Some key
      | None => s128_keys (keys w) !! index
      end
  | None => s128_keys (keys w) !! index
  end.
Proof.
  unfold LoadFromFile, file_value128.
  destruct (files w !! filename) as [file|]; [|done].
  apply LoadFromFile_lines_s128.
Qed.

Lemma LoadFromFile_s256 filename is_title_keys w index :
  s256_keys (keys (LoadFromFile filename is_title_keys w)) !! index =
  match files w !! filename with
  | Some file =>
      match file_value256 is_title_keys file index with
      | Some key => Some key
      | None => s256_keys (keys w) !! index
      end
  | None => s256_keys (keys w) !! index
  end.
Proof.
  unfold LoadFromFile, file_value256.
  destruct (files w !! filename) as [file|]; [|done].
  apply LoadFromFile_lines_s256.
Qed.

(** C1, as the code has it. [SetKey] on an occupied index is a no-op
    (first writer wins), but the insertions made while a key file is
    loaded assign unconditionally: after [LoadFromFile] an index holds the
    value of the file's last line for it, whatever it held before.  So
    when the autogenerated file is loaded after the base file, every index
    the autogenerated file provides ends up with the autogenerated value,
    and only the other indices keep what the base file gave them. *)
Theorem load_assigns_SetKey_keeps
    (w : World) (base autogenerated : string) (is_title_keys : bool) :
  let loaded :=
    LoadFromFile autogenerated is_title_keys
      (LoadFromFile base is_title_keys w) in
  (∀ index,
     s128_keys (keys loaded) !! index =
     match files w !! autogenerated with
     | Some file =>
         match file_value128 is_title_keys file index with
         | Some key => Some key
         | None =>
             s128_keys (keys (LoadFromFile base is_title_keys w)) !! index
         end
     | None => s128_keys (keys (LoadFromFile base is_title_keys w)) !! index
     end) ∧
  (∀ index,
     s256_keys (keys loaded) !! index =
     match files w !! autogenerated with
     | Some file =>
         match file_value256 is_title_keys file index with
         | Some key => Some key
         | None =>
             s256_keys (keys (LoadFromFile base is_title_keys w)) !! index
         end
     | None => s256_keys (keys (LoadFromFile base is_title_keys w)) !! index
     end) ∧
  (∀ id f1 f2 key,
     is_Some (s128_keys (keys w) !! MkKeyIndex id f1 f2) →
     SetKey128 id key f1 f2 w = w) ∧
  (∀ id f1 f2 key,
     is_Some (s256_keys (keys w) !! MkKeyIndex id f1 f2) →
     SetKey256 id key f1 f2 w = w).
Proof.
  cbv zeta. split; [|split; [|split]].
  - intros index. rewrite LoadFromFile_s128. by rewrite LoadFromFile_files.
  - intros index. rewrite LoadFromFile_s256. by rewrite LoadFromFile_files.
  - intros. by apply SetKey128_occupied.
  - intros. by apply SetKey256_occupied.
Qed.

(** The claim of C1 fails on the code: with a base key file and an
    autogenerated key file that both give [master_key_00], the key manager
    ends up with the autogenerated value, not the one of the base file. *)
Lemma autogenerated_file_overwrites_base_key :
  let base_only :=
    keys (@KeyManager_new reference_hex example_host base_disk) in
  let both :=
    keys (@KeyManager_new reference_hex example_host
            base_and_autogenerated_disk) in
  s128_keys base_only !! MkKeyIndex Master 0 0
    = Some (hex_to_array 16 "C2CAAFF089B9AED55694876055271C7D") ∧
  s128_keys both !! MkKeyIndex Master 0 0
    = Some (hex_to_array 16 "11111111111111111111111111111111") ∧
  ¬ (∀ index key,
       s128_keys base_only !! index = Some key →
       s128_keys both !! index = Some key).
Proof.
  cbv zeta.
  assert (s128_keys
            (keys (@KeyManager_new reference_hex example_host base_disk))
          !! MkKeyIndex Master 0 0
          = Some (hex_to_array 16 "C2CAAFF089B9AED55694876055271C7D"))
    as Hbase by (by vm_compute).
  assert (s128_keys
            (keys (@KeyManager_new reference_hex example_host
                     base_and_autogenerated_disk))
          !! MkKeyIndex Master 0 0
          = Some (hex_to_array 16 "11111111111111111111111111111111"))
    as Hboth by (by vm_compute).
  split; [done|]. split; [done|].
  intros Hclaim. specialize (Hclaim _ _ Hbase). rewrite Hboth in Hclaim.
  by vm_compute in Hclaim.
Qed.

(** *** Title keys: from a line to an index and back to a name *)

Lemma string_app_nil_l (s : string) : EmptyString +:+ s = s.
Proof. reflexivity. Qed.

Lemma string_app_cons (c : ascii) (a b : string) :
  String c a +:+ b = String c (a +:+ b).
Proof. reflexivity. Qed.

Lemma string_app_nil_r (s : string) : s +:+ EmptyString = s.
Proof.
  induction s as [|c s IH]; [done|]. by rewrite string_app_cons, IH.
Qed.

Lemma string_app_snoc (a b : string) (c : ascii) :
  (a +:+ String c EmptyString) +:+ b = a +:+ String c b.
Proof.
  induction a as [|x a IH]; [done|]. by rewrite !string_app_cons, IH.
Qed.

Lemma string_forall_impl (P Q : ascii → bool) (s : string) :
  (∀ c, P c = true → Q c = true) →
  string_forall P s = true → string_forall Q s = true.
Proof.
  intros HPQ. induction s as [|c s IH]; [done|]. cbn.
  rewrite !andb_true_iff. intros [Hc Hs]. auto.
Qed.

(** Characters other than the delimiter are collected into the piece in
    progress. *)
Lemma getline_all_accum (delim : ascii) (s item rest : string) :
  string_forall (λ c, negb (bool_decide (c = delim))) s = true →
  getline_all delim item (s +:+ rest) = getline_all delim (item +:+ s) rest.
Proof.
  revert item. induction s as [|c s IH]; intros item Hs.
  - by rewrite string_app_nil_l, string_app_nil_r.
  - cbn in Hs. apply andb_true_iff in Hs as [Hc Hs].
    rewrite string_app_cons. cbn [getline_all].
    destruct (bool_decide (c = delim)); [done|].
    rewrite IH by done. by rewrite string_app_snoc.
Qed.

Lemma erase_remove_id (c : ascii) (s : string) :
  string_forall (λ a, negb (bool_decide (a = c))) s = true →
  erase_remove c s = s.
Proof.
  induction s as [|a s IH]; [done|]. cbn.
  rewrite andb_true_iff. intros [Ha Hs].
  destruct (bool_decide (a = c)); [done|]. by rewrite IH.
Qed.

Lemma erase_remove_app (c : ascii) (s1 s2 : string) :
  erase_remove c (s1 +:+ s2) = erase_remove c s1 +:+ erase_remove c s2.
Proof.
  induction s1 as [|a s1 IH]; [done|].
  rewrite string_app_cons. cbn [erase_remove].
  destruct (bool_decide (a = c)); [done|]. by rewrite string_app_cons, IH.
Qed.

Lemma is_hex_digit_not (c d : ascii) :
  is_hex_digit d = false →
  is_hex_digit c = true → negb (bool_decide (c = d)) = true.
Proof.
  intros Hd Hc. apply negb_true_iff, bool_decide_eq_false_2.
  intros ->. congruence.
Qed.

Lemma getline_all_delim (delim : ascii) (item rest : string) :
  getline_all delim item (String delim rest)
  = item :: getline_all delim EmptyString rest.
Proof. cbn [getline_all]. by rewrite bool_decide_eq_true_2. Qed.

Lemma getline_all_other (delim c : ascii) (item rest : string) :
  c ≠ delim →
  getline_all delim item (String c rest)
  = getline_all delim (item +:+ String c EmptyString) rest.
Proof. intros Hc. cbn [getline_all]. by rewrite bool_decide_eq_false_2. Qed.

Lemma getline_all_last (delim c : ascii) (s : string) :
  string_forall (λ c, negb (bool_decide (c = delim))) s = true →
  getline_all delim (String c EmptyString) s = [String c s].
Proof.
  intros Hs. rewrite <- (string_app_nil_r s) at 1.
  rewrite getline_all_accum by done.
  rewrite string_app_cons, string_app_nil_l. cbn [getline_all].
  by rewrite bool_decide_eq_false_2.
Qed.

(** A line [name = value] of hexadecimal digits splits into exactly the
    name and the value. *)
Lemma line_pieces_hex (name value : string) :
  string_forall is_hex_digit name = true →
  string_forall is_hex_digit value = true →
  line_pieces (name +:+ " = " +:+ value) = Some (name, value).
Proof.
  intros Hname Hvalue. unfold line_pieces.
  assert (∀ d s, is_hex_digit d = false →
                 string_forall is_hex_digit s = true →
                 string_forall (λ c, negb (bool_decide (c = d))) s = true)
    as Hnot.
  { intros d s Hd. apply string_forall_impl. intros c.
    by apply is_hex_digit_not. }
  change (" = " +:+ value) with (String " " (String "=" (String " " value))).
  rewrite getline_all_accum by (by apply Hnot).
  rewrite string_app_nil_l.
  rewrite getline_all_other by done.
  rewrite getline_all_delim.
  rewrite getline_all_other by done.
  rewrite string_app_nil_l.
  rewrite getline_all_last by (by apply Hnot).
  rewrite erase_remove_app. cbn [erase_remove].
  rewrite !(bool_decide_eq_true_2 (" "%char = " "%char)) by done.
  rewrite !erase_remove_id by (by apply Hnot).
  by rewrite string_app_nil_r.
Qed.

Lemma u8_of_N_low (b : u8) (n : N) : u8_of_N (Byte.to_N b + 256 * n) = b.
Proof.
  unfold u8_of_N.
  pose proof (Byte.to_N_bounded b) as Hb.
  replace ((Byte.to_N b + 256 * n) mod 256)%N with (Byte.to_N b).
  - by rewrite Byte.of_to_N.
  - apply (N.mod_unique _ _ n); lia.
Qed.

(** Writing an integer that was read from [k] bytes gives the bytes back. *)
Lemma N_to_le_le_to_N (k : nat) (bs : list u8) :
  length bs = k → vec_to_list (N_to_le k (le_to_N bs)) = bs.
Proof.
  revert k. induction bs as [|b bs IH]; intros k Hk; subst k; [done|].
  cbn [length N_to_le le_to_N vec_to_list]. rewrite u8_of_N_low. f_equal.
  replace ((Byte.to_N b + 256 * le_to_N bs) / 256)%N with (le_to_N bs).
  - by apply IH.
  - pose proof (Byte.to_N_bounded b) as Hb.
    apply (N.div_unique _ _ _ (Byte.to_N b)); lia.
Qed.

(** The two [memcpy]s of [SetKey] undo the [memcpy] of [LoadFromFile]. *)
Lemma memcpy_Key128_memcpy_u128 (raw : Key128) :
  memcpy_Key128 (memcpy_u128 raw).1 (memcpy_u128 raw).2 = raw.
Proof.
  apply vec_to_list_inj2. unfold memcpy_Key128, memcpy_u128. cbn [fst snd].
  etrans;
    [exact (vec_to_list_app
              (N_to_le 8 (le_to_N (take 8 (vec_to_list raw))))
              (N_to_le 8 (le_to_N (take 8 (drop 8 (vec_to_list raw))))))|].
  pose proof (length_vec_to_list raw) as Hlen.
  rewrite !N_to_le_le_to_N.
  - rewrite (take_ge (drop 8 _)) by (rewrite length_drop; lia).
    apply take_drop.
  - rewrite length_take, length_drop. lia.
  - rewrite length_take. lia.
Qed.

(** No entry of the 128-bit name table is a title key. *)
Lemma file_id_find_if_Titlekey (f1 f2 : u64) :
  file_id_find_if s128_file_id Titlekey f1 f2 = None.
Proof.
  unfold file_id_find_if.
  destruct (List.find _ s128_file_id) as [elem|] eqn:Hfind; [|done].
  apply find_some in Hfind as [Hin Heq].
  apply bool_decide_eq_true in Heq.
  assert (type elem.2 = Titlekey) as Htype by congruence.
  clear Heq. unfold s128_file_id in Hin. cbn [In] in Hin.
  repeat (destruct Hin as [<-|Hin]; [done|]). done.
Qed.

Lemma is_hex_string_forall (len : nat) (s : string) :
  is_hex_string len s = true → string_forall is_hex_digit s = true.
Proof. unfold is_hex_string. by intros [_ ?]%andb_true_iff. Qed.

(** C8. A title-key line whose name is a 32-hex-digit rights identifier
    [R] stores its key at the [Titlekey] index whose [field1] and [field2]
    are the second and the first 64-bit half of the 16 bytes of [R].
    Serialising that index through [SetKey] rebuilds exactly those 16
    bytes, in the original order, and writes their hexadecimal form as
    the key name. *)
Theorem titlekey_rights_id_round_trip
    (R V : string) (km : KeyManager) (w : World) (key : Key128) :
  is_hex_string 32 R = true →
  is_hex_string 32 V = true →
  ∃ f1 f2 : u64,
    (f2, f1) = memcpy_u128 (HexStringToArray 16 R) ∧
    LoadFromFile_line true km (R +:+ " = " +:+ V)
      = assign128 (MkKeyIndex Titlekey f1 f2) (HexStringToArray 16 V) km ∧
    memcpy_Key128 f2 f1 = HexStringToArray 16 R ∧
    (s128_keys (keys w) !! MkKeyIndex Titlekey f1 f2 = None →
     SetKey128 Titlekey key f1 f2 w =
     let w' :=
       WriteKeyToFile true (HexArrayToString (HexStringToArray 16 R)) key w in
     MkWorld (files w')
             (assign128 (MkKeyIndex Titlekey f1 f2) key (keys w'))).
Proof.
  intros HR HV.
  apply is_hex_string_forall in HR, HV.
  exists (memcpy_u128 (HexStringToArray 16 R)).2,
         (memcpy_u128 (HexStringToArray 16 R)).1.
  split; [by destruct (memcpy_u128 _)|].
  split.
  { unfold LoadFromFile_line.
    pose proof (line_pieces_hex R V HR HV) as Hpieces.
    unfold line_pieces in Hpieces.
    destruct (getline_all "=" EmptyString (R +:+ " = " +:+ V))
      as [|out0 [|out1 [|? ?]]]; try done.
    by injection Hpieces as -> ->. }
  split; [apply memcpy_Key128_memcpy_u128|].
  intros Habsent. unfold SetKey128.
  rewrite bool_decide_eq_false_2 by (rewrite Habsent; by intros [? ?]).
  rewrite (bool_decide_eq_true_2 (Titlekey = Titlekey)) by done.
  rewrite memcpy_Key128_memcpy_u128, file_id_find_if_Titlekey. done.
Qed.

End StoreProperties.

(** ** Properties of the derivation engine *)

Section DerivationProperties.
Context `{AESUtil}.

Lemma GenerateKeyEncryptionKey_Derive_spec
    (source master kek_seed key_seed : Key128) :
  GenerateKeyEncryptionKey source master kek_seed key_seed
  = Derive_spec source master kek_seed key_seed.
Proof.
  unfold GenerateKeyEncryptionKey, Derive_spec, unwrap.
  destruct (decide (key_seed = zero_array 16)) as [Hz|Hnz].
  - rewrite bool_decide_eq_false_2; [done|]. by intros Hne.
  - by rewrite bool_decide_eq_true_2.
Qed.

(** C4. [GenerateKeyEncryptionKey] is the three-stage chain: unwrap the
    KEK seed under the master key, unwrap the source under that, and, if
    the key seed is not all zero, unwrap the key seed under the second
    intermediate; otherwise the second intermediate is the result. *)
Theorem GenerateKeyEncryptionKey_is_chain
    (source masterKey kekSeed keySeed : Key128) :
  GenerateKeyEncryptionKey source masterKey kekSeed keySeed
  = (let intermediate1 := Transcode (AESCipher masterKey) kekSeed in
     let intermediate2 := Transcode (AESCipher intermediate1) source in
     if decide (keySeed = zero_array 16) then intermediate2
     else Transcode (AESCipher intermediate2) keySeed) ∧
  GenerateKeyEncryptionKey source masterKey kekSeed keySeed
  = Derive_spec source masterKey kekSeed keySeed.
Proof.
  split; apply GenerateKeyEncryptionKey_Derive_spec.
Qed.

Lemma DeriveSDKeys_body_result (keys : KeyManager) :
  (DeriveSDKeys_body keys).2 =
  match first_missing keys with
  | Some op => inl (missing_status op)
  | None =>
      let sd_kek :=
        GenerateKeyEncryptionKey
          (GetKey128 keys Source (SourceKeyType_u64 SDKEK) 0)
          (GetKey128 keys Master 0 0)
          (GetKey128 keys Source (SourceKeyType_u64 AESKEKGeneration) 0)
          (GetKey128 keys Source (SourceKeyType_u64 AESKeyGeneration) 0) in
      let sd_seed := GetKey128 keys SDSeed 0 0 in
      inr (Transcode (AESCipher sd_kek)
             (combine_source_and_seed
                (GetKey256 keys SDKeySource (SDKeyType_u64 Save) 0) sd_seed),
           Transcode (AESCipher sd_kek)
             (combine_source_and_seed
                (GetKey256 keys SDKeySource (SDKeyType_u64 NCA) 0) sd_seed))
  end.
Proof.
  unfold DeriveSDKeys_body, first_missing, operands,
    keys_HasKey128, keys_HasKey256, keys_GetKey128, keys_GetKey256.
  cbn [List.find operand_present].
  destruct (HasKey128 keys Source (SourceKeyType_u64 SDKEK) 0); [|done].
  destruct (HasKey128 keys Source (SourceKeyType_u64 AESKEKGeneration) 0);
    [|done].
  destruct (HasKey128 keys Source (SourceKeyType_u64 AESKeyGeneration) 0);
    [|done].
  destruct (HasKey128 keys SDSeed 0 0); [|done].
  destruct (HasKey256 keys SDKeySource (SDKeyType_u64 Save) 0); [|done].
  destruct (HasKey256 keys SDKeySource (SDKeyType_u64 NCA) 0); done.
Qed.

Lemma first_missing_None (keys : KeyManager) :
  first_missing keys = None ↔ ∀ op, operand_present keys op = true.
Proof.
  split.
  - intros Hnone op.
    pose proof (find_none _ _ Hnone op) as Hop. cbv beta in Hop.
    rewrite negb_false_iff in Hop. apply Hop.
    destruct op; cbn; tauto.
  - intros Hall. unfold first_missing, operands. cbn [List.find].
    by rewrite !Hall.
Qed.

Lemma first_missing_Some (keys : KeyManager) (op : Operand) :
  first_missing keys = Some op →
  operand_present keys op = false.
Proof.
  intros Hfind. apply find_some in Hfind as [_ Hneg].
  by destruct (operand_present keys op).
Qed.

Lemma missing_status_inj (op op' : Operand) :
  missing_status op = missing_status op' → op = op'.
Proof. by destruct op, op'. Qed.

Lemma DeriveSDKeys_status (sd_keys : Key256 * Key256) (keys : KeyManager) :
  (DeriveSDKeys sd_keys keys).1 =
  match first_missing keys with
  | Some op => missing_status op
  | None => Success
  end.
Proof.
  unfold DeriveSDKeys.
  pose proof (DeriveSDKeys_body_result keys) as Hres.
  destruct (DeriveSDKeys_body keys) as [calls [status|out]];
    destruct (first_missing keys); simpl in *; congruence.
Qed.

(** The in-place XOR loop computes the byte-wise XOR with the seed
    repeated every 16 bytes. *)
Lemma combine_source_and_seed_spec (source : Key256) (sd_seed : Key128) :
  vec_to_list (combine_source_and_seed source sd_seed)
  = xor_with_repeated_seed source sd_seed.
Proof.
  unfold combine_source_and_seed, xor_with_repeated_seed.
  generalize u8_xor. intros op.
  inv_vec source. inv_vec sd_seed. intros. vm_compute. reflexivity.
Qed.

(** C6. [DeriveSDKeys] returns the status naming the first of the six
    operands, in precedence order, that the store lacks, and [Success] if
    it lacks none.  In particular a store that lacks exactly one operand
    yields the status of that operand, the six statuses are distinct and
    differ from [Success], and with all six present the call succeeds and
    leaves two keys in [sd_keys]. *)
Theorem DeriveSDKeys_operand_precedence
    (sd_keys : Key256 * Key256) (keys : KeyManager) :
  (DeriveSDKeys sd_keys keys).1 =
    match first_missing keys with
    | Some op => missing_status op
    | None => Success
    end ∧
  (∀ op,
     operand_present keys op = false →
     (∀ op', op' ≠ op → operand_present keys op' = true) →
     (DeriveSDKeys sd_keys keys).1 = missing_status op) ∧
  ((∀ op, operand_present keys op = true) →
     ∃ save_key nca_key,
       DeriveSDKeys sd_keys keys = (Success, (save_key, nca_key))) ∧
  (∀ op op', missing_status op = missing_status op' → op = op') ∧
  (∀ op, missing_status op ≠ Success).
Proof.
  split; [apply DeriveSDKeys_status|].
  split; [|split; [|split]].
  - intros op Habsent Hothers. rewrite DeriveSDKeys_status.
    destruct (first_missing keys) as [op0|] eqn:Hfirst.
    + apply first_missing_Some in Hfirst.
      destruct (decide (op0 = op)) as [->|Hne]; [done|].
      rewrite Hothers in Hfirst; done.
    + rewrite first_missing_None in Hfirst. rewrite Hfirst in Habsent. done.
  - intros Hall. apply first_missing_None in Hall.
    pose proof (DeriveSDKeys_status sd_keys keys) as Hst.
    rewrite Hall in Hst.
    destruct (DeriveSDKeys sd_keys keys) as [st [k1 k2]]. simpl in Hst.
    subst st. by exists k1, k2.
  - apply missing_status_inj.
  - by intros [].
Qed.

(** C5. When [DeriveSDKeys] succeeds, the store holds the seed and both
    256-bit sources; each source is XORed byte by byte with the seed
    repeated every 16 bytes, the result is decrypted under the derived
    SD KEK, and [sd_keys] receives the save key first and the NCA key
    second. *)
Theorem DeriveSDKeys_success_output
    (sd_keys out : Key256 * Key256) (keys : KeyManager) :
  DeriveSDKeys sd_keys keys = (Success, out) →
  ∃ (sd_seed : Key128) (save_source nca_source xored_save xored_nca : Key256),
    s128_keys keys !! MkKeyIndex SDSeed 0 0 = Some sd_seed ∧
    s256_keys keys !! MkKeyIndex SDKeySource (SDKeyType_u64 Save) 0
      = Some save_source ∧
    s256_keys keys !! MkKeyIndex SDKeySource (SDKeyType_u64 NCA) 0
      = Some nca_source ∧
    vec_to_list xored_save = xor_with_repeated_seed save_source sd_seed ∧
    vec_to_list xored_nca = xor_with_repeated_seed nca_source sd_seed ∧
    out = (unwrap (sd_kek_of keys) xored_save,
           unwrap (sd_kek_of keys) xored_nca).
Proof.
  intros Hrun.
  pose proof (DeriveSDKeys_status sd_keys keys) as Hst.
  rewrite Hrun in Hst. simpl in Hst.
  destruct (first_missing keys) as [op|] eqn:Hfirst; [by destruct op|].
  pose proof (proj1 (first_missing_None keys) Hfirst) as Hall.
  pose proof (Hall OpSDSeed) as Hseed.
  pose proof (Hall OpSDSaveKeySource) as Hsave.
  pose proof (Hall OpSDNCAKeySource) as Hnca.
  cbn [operand_present] in Hseed, Hsave, Hnca.
  apply bool_decide_eq_true in Hseed as [sd_seed Hseed].
  apply bool_decide_eq_true in Hsave as [save_source Hsave].
  apply bool_decide_eq_true in Hnca as [nca_source Hnca].
  exists sd_seed, save_source, nca_source,
    (combine_source_and_seed save_source sd_seed),
    (combine_source_and_seed nca_source sd_seed).
  rewrite !combine_source_and_seed_spec.
  do 5 (split; [done|]).
  unfold DeriveSDKeys in Hrun.
  pose proof (DeriveSDKeys_body_result keys) as Hres.
  rewrite Hfirst in Hres.
  destruct (DeriveSDKeys_body keys) as [calls [status|o]]; cbn [snd] in Hres;
    [done|].
  injection Hres as ->. injection Hrun as <-.
  unfold sd_kek_of, unwrap.
  rewrite <- GenerateKeyEncryptionKey_Derive_spec.
  apply GetKey128_present in Hseed.
  apply GetKey256_present in Hsave, Hnca.
  cbn [SDKeyType_u64 SourceKeyType_u64] in *.
  by rewrite Hseed, Hsave, Hnca.
Qed.

(** The only [GetKey] call of [DeriveSDKeys] that no [HasKey] call on
    the same index precedes is the one for the generation-0 master key,
    and it is made as soon as the three 128-bit sources are present. *)
Lemma DeriveSDKeys_unchecked_gets (keys : KeyManager) :
  unchecked_gets [] (DeriveSDKeys_calls keys) =
  if operand_present keys OpSDKEKSource
     && operand_present keys OpAESKEKGenerationSource
     && operand_present keys OpAESKeyGenerationSource
  then [CallGetKey128 (MkKeyIndex Master 0 0)]
  else [].
Proof.
  unfold DeriveSDKeys_calls, DeriveSDKeys_body,
    keys_HasKey128, keys_HasKey256, keys_GetKey128, keys_GetKey256.
  cbn [operand_present].
  destruct (HasKey128 keys Source (SourceKeyType_u64 SDKEK) 0); [|done].
  destruct (HasKey128 keys Source (SourceKeyType_u64 AESKEKGeneration) 0);
    [|done].
  destruct (HasKey128 keys Source (SourceKeyType_u64 AESKeyGeneration) 0);
    [|done].
  destruct (HasKey128 keys SDSeed 0 0); [|done].
  destruct (HasKey256 keys SDKeySource (SDKeyType_u64 Save) 0); [|done].
  destruct (HasKey256 keys SDKeySource (SDKeyType_u64 NCA) 0); done.
Qed.

(** C2, evaluated on a store that holds the six operands but no master
    key: [DeriveSDKeys] never calls [HasKey] for the master key, reads it
    with [GetKey] (which yields the all-zero key) and returns [Success]
    instead of a missing-operand status. *)
Theorem DeriveSDKeys_master_key_unchecked (sd_keys : Key256 * Key256) :
  HasKey128 operands_only Master 0 0 = false ∧
  (CallHasKey128 (MkKeyIndex Master 0 0) ∉ DeriveSDKeys_calls operands_only) ∧
  unchecked_gets [] (DeriveSDKeys_calls operands_only)
    = [CallGetKey128 (MkKeyIndex Master 0 0)] ∧
  GetKey128 operands_only Master 0 0 = zero_array 16 ∧
  (DeriveSDKeys sd_keys operands_only).1 = Success.
Proof.
  split; [by vm_compute|].
  split.
  { apply (bool_decide_unpack _). by vm_compute. }
  split; [by rewrite DeriveSDKeys_unchecked_gets|].
  split; [by vm_compute|].
  rewrite DeriveSDKeys_status. by vm_compute.
Qed.

End DerivationProperties.

(** ** Properties of the device seed discovery *)

Section SeedProperties.

Lemma overlay_full {n} (got : list u8) (buf : array n) :
  length got = n → vec_to_list (overlay got buf) = got.
Proof.
  revert got. induction buf as [|b n buf IH]; intros got Hlen.
  - by destruct got.
  - destruct got as [|g got]; [done|]. simpl in *.
    f_equal. apply IH. lia.
Qed.

Lemma ReadBytes_full {n} (file : list u8) (offset : nat) (buf : array n) :
  offset + n ≤ length file →
  vec_to_list (ReadBytes file offset buf).1 = take n (drop offset file).
Proof.
  intros Hfit. unfold ReadBytes. cbn [fst].
  apply overlay_full. rewrite length_take, length_drop. lia.
Qed.

Lemma scan_save_43_step save_43 private_seed buffer offset :
  scan_save_43 save_43 private_seed buffer offset =
  if decide (offset + 16 < GetSize save_43) then
    let buffer' := (ReadBytes save_43 offset buffer).1 in
    if bool_decide (buffer' = private_seed) then offset
    else scan_save_43 save_43 private_seed buffer' (S offset)
  else offset.
Proof.
  simp scan_save_43.
  destruct (decide (offset + 16 < GetSize save_43)); reflexivity.
Qed.

(** The loop stops at the first offset from [offset] on whose window is
    the marker, or at the first offset that fails the loop condition. *)
Lemma scan_save_43_result save_43 private_seed buffer offset :
  let r := scan_save_43 save_43 private_seed buffer offset in
  offset ≤ r ∧
  (r + 16 < GetSize save_43 → marker_at save_43 private_seed r) ∧
  (∀ j, offset ≤ j < r →
        j + 16 < GetSize save_43 ∧ ¬ marker_at save_43 private_seed j).
Proof.
  remember (GetSize save_43 - offset) as d eqn:Hd.
  revert offset buffer Hd.
  induction (lt_wf d) as [d _ IH]. intros offset buffer Hd.
  rewrite scan_save_43_step.
  destruct (decide (offset + 16 < GetSize save_43)) as [Hlt|Hge].
  - cbv zeta.
    assert (vec_to_list (ReadBytes save_43 offset buffer).1
            = take 16 (drop offset save_43)) as Hread.
    { apply ReadBytes_full. unfold GetSize in Hlt. lia. }
    destruct (bool_decide_reflect
                ((ReadBytes save_43 offset buffer).1 = private_seed))
      as [Heq|Hne].
    + split; [lia|]. split; [|intros j Hj; lia].
      intros _. unfold marker_at. by rewrite <- Hread, Heq.
    + specialize (IH (GetSize save_43 - S offset) ltac:(lia) (S offset)
                     (ReadBytes save_43 offset buffer).1 eq_refl).
      destruct IH as (Hle & Hfound & Hbefore).
      split; [lia|]. split; [done|].
      intros j Hj. destruct (decide (j = offset)) as [->|Hjne].
      * split; [done|]. unfold marker_at. rewrite <- Hread.
        intros Hm. apply Hne. by apply vec_to_list_inj2.
      * apply Hbefore. lia.
  - split; [lia|]. split; [lia|]. intros j Hj. lia.
Qed.

(** With both files open and a full 16-byte marker, [DeriveSDSeed] is
    decided by where the loop stops. *)
Lemma DeriveSDSeed_opened save_43 sd_private (marker : Key128) :
  take 16 sd_private = vec_to_list marker →
  DeriveSDSeed (Some save_43) (Some sd_private) =
  let offset := scan_save_43 save_43 marker (zero_array 16) 0 in
  if bool_decide (GetSize save_43 ≤ offset + 16) then None
  else Some (ReadBytes save_43 (offset + 16) (zero_array 16)).1.
Proof.
  intros Hmarker. unfold DeriveSDSeed.
  assert (length (take 16 sd_private) = 16) as Hlen.
  { by rewrite Hmarker, length_vec_to_list. }
  assert ((ReadBytes sd_private 0 (zero_array 16)).1 = marker) as Hread.
  { apply vec_to_list_inj2. unfold ReadBytes. cbn [fst]. rewrite drop_0.
    rewrite overlay_full by done. done. }
  unfold ReadBytes in *. cbn [fst] in Hread. rewrite drop_0 in *.
  rewrite Hread, Hlen. rewrite bool_decide_eq_false_2 by (intros Hne; done).
  done.
Qed.

(** A seed is only returned for the first offset whose window is the
    marker, and only when at least one byte follows that window. *)
Lemma DeriveSDSeed_Some_inv save_43 sd_private (marker seed : Key128) :
  take 16 sd_private = vec_to_list marker →
  DeriveSDSeed (Some save_43) (Some sd_private) = Some seed →
  ∃ offset,
    marker_at save_43 marker offset ∧
    (∀ j, j < offset → ¬ marker_at save_43 marker j) ∧
    offset + 16 < length save_43 ∧
    seed = (ReadBytes save_43 (offset + 16) (zero_array 16)).1.
Proof.
  intros Hmarker Hrun. rewrite (DeriveSDSeed_opened _ _ _ Hmarker) in Hrun.
  cbv zeta in Hrun.
  pose proof (scan_save_43_result save_43 marker (zero_array 16) 0)
    as (_ & Hfound & Hbefore).
  destruct (bool_decide_reflect
              (GetSize save_43 ≤
               scan_save_43 save_43 marker (zero_array 16) 0 + 16))
    as [Hge|Hlt]; [done|].
  injection Hrun as <-.
  exists (scan_save_43 save_43 marker (zero_array 16) 0).
  unfold GetSize in *.
  split; [apply Hfound; lia|]. split; [|split; [lia|done]].
  intros j Hj. apply Hbefore. lia.
Qed.

(** C7. If the save file holds the marker at an offset [o] with at least
    16 bytes after it, [DeriveSDSeed] stops at the first offset [o0] whose
    window is the marker (so [o0 ≤ o], and [o0 = o] when no earlier window
    matches) and returns exactly the 16 bytes at [o0 + 16]. *)
Theorem DeriveSDSeed_finds_first_marker
    (save_43 sd_private : list u8) (marker : Key128) (o : nat) :
  take 16 sd_private = vec_to_list marker →
  marker_at save_43 marker o →
  o + 32 ≤ length save_43 →
  ∃ (o0 : nat) (seed : Key128),
    o0 ≤ o ∧
    marker_at save_43 marker o0 ∧
    (∀ j, j < o0 → ¬ marker_at save_43 marker j) ∧
    DeriveSDSeed (Some save_43) (Some sd_private) = Some seed ∧
    vec_to_list seed = take 16 (drop (o0 + 16) save_43).
Proof.
  intros Hmarker Hat Hroom.
  rewrite (DeriveSDSeed_opened _ _ _ Hmarker). cbv zeta.
  pose proof (scan_save_43_result save_43 marker (zero_array 16) 0)
    as (_ & Hfound & Hbefore).
  set (o0 := scan_save_43 save_43 marker (zero_array 16) 0) in *.
  unfold GetSize in *.
  assert (o0 ≤ o) as Hle.
  { destruct (decide (o0 ≤ o)) as [|Hgt]; [done|].
    destruct (Hbefore o ltac:(lia)) as [_ Hno]. done. }
  exists o0, (ReadBytes save_43 (o0 + 16) (zero_array 16)).1.
  split; [done|]. split; [apply Hfound; lia|].
  split; [intros j Hj; apply Hbefore; lia|].
  split.
  - rewrite bool_decide_eq_false_2 by lia. done.
  - apply ReadBytes_full. lia.
Qed.

(** C3, evaluated on a save file that is the marker followed by a single
    byte: the marker is accepted although only one of the 16 seed bytes
    exists, and the seed returned is that byte padded with zeros. *)
Theorem DeriveSDSeed_accepts_short_seed :
  length save_with_one_trailing_byte = 17 ∧
  marker_at save_with_one_trailing_byte
            (hex_to_array 16 "A1B2C3D4E5F60718293A4B5C6D7E8F90") 0 ∧
  DeriveSDSeed (Some save_with_one_trailing_byte) (Some example_marker)
  = Some (hex_to_array 16 "63000000000000000000000000000000").
Proof. by vm_compute. Qed.

End SeedProperties.

(** ** Further properties of the key store *)

Section MoreStoreProperties.
Context `{HexUtil} `{Host}.

Lemma KeyManager_eq (km km' : KeyManager) :
  dev_mode km = dev_mode km' →
  s128_keys km = s128_keys km' →
  s256_keys km = s256_keys km' →
  km = km'.
Proof. destruct km, km'. cbn. by intros -> -> ->. Qed.

Lemma SetKey128_lookup id key f1 f2 w :
  s128_keys (keys (SetKey128 id key f1 f2 w)) !! MkKeyIndex id f1 f2
  = Some (default key (s128_keys (keys w) !! MkKeyIndex id f1 f2)).
Proof.
  unfold SetKey128.
  destruct (s128_keys (keys w) !! MkKeyIndex id f1 f2) as [old|] eqn:Hold.
  - rewrite bool_decide_eq_true_2 by eauto. by rewrite Hold.
  - rewrite bool_decide_eq_false_2 by (by intros [? ?]).
    cbn [keys assign128 s128_keys]. by rewrite lookup_insert_eq.
Qed.

Lemma SetKey256_lookup id key f1 f2 w :
  s256_keys (keys (SetKey256 id key f1 f2 w)) !! MkKeyIndex id f1 f2
  = Some (default key (s256_keys (keys w) !! MkKeyIndex id f1 f2)).
Proof.
  unfold SetKey256.
  destruct (s256_keys (keys w) !! MkKeyIndex id f1 f2) as [old|] eqn:Hold.
  - rewrite bool_decide_eq_true_2 by eauto. by rewrite Hold.
  - rewrite bool_decide_eq_false_2 by (by intros [? ?]).
    cbn [keys assign256 s256_keys]. by rewrite lookup_insert_eq.
Qed.

(** X1. After [SetKey] the slot is occupied, and [GetKey] returns the value
    that was there before if there was one, and the new value otherwise;
    this holds for both stores. *)
Theorem SetKey_then_HasKey_GetKey (w : World) :
  (∀ id key f1 f2,
     let w' := SetKey128 id key f1 f2 w in
     HasKey128 (keys w') id f1 f2 = true ∧
     GetKey128 (keys w') id f1 f2 =
       if HasKey128 (keys w) id f1 f2 then GetKey128 (keys w) id f1 f2
       else key) ∧
  (∀ id key f1 f2,
     let w' := SetKey256 id key f1 f2 w in
     HasKey256 (keys w') id f1 f2 = true ∧
     GetKey256 (keys w') id f1 f2 =
       if HasKey256 (keys w) id f1 f2 then GetKey256 (keys w) id f1 f2
       else key).
Proof.
  split; intros id key f1 f2; cbv zeta.
  - pose proof (SetKey128_lookup id key f1 f2 w) as Hnew.
    split; [apply HasKey128_spec; eauto|].
    rewrite (GetKey128_present _ _ _ _ _ Hnew).
    unfold HasKey128, GetKey128, HasKey128.
    destruct (s128_keys (keys w) !! MkKeyIndex id f1 f2) as [old|].
    + by rewrite bool_decide_eq_true_2 by eauto.
    + by rewrite bool_decide_eq_false_2 by (by intros [? ?]).
  - pose proof (SetKey256_lookup id key f1 f2 w) as Hnew.
    split; [apply HasKey256_spec; eauto|].
    rewrite (GetKey256_present _ _ _ _ _ Hnew).
    unfold HasKey256, GetKey256, HasKey256.
    destruct (s256_keys (keys w) !! MkKeyIndex id f1 f2) as [old|].
    + by rewrite bool_decide_eq_true_2 by eauto.
    + by rewrite bool_decide_eq_false_2 by (by intros [? ?]).
Qed.

(** X2. [SetKey] is idempotent: a second [SetKey] on the same index, with
    any value, changes neither the store nor the files. *)
Theorem SetKey_twice (w : World) :
  (∀ id key key' f1 f2,
     SetKey128 id key' f1 f2 (SetKey128 id key f1 f2 w)
     = SetKey128 id key f1 f2 w) ∧
  (∀ id key key' f1 f2,
     SetKey256 id key' f1 f2 (SetKey256 id key f1 f2 w)
     = SetKey256 id key f1 f2 w).
Proof.
  split; intros id key key' f1 f2.
  - apply SetKey128_occupied. rewrite SetKey128_lookup. eauto.
  - apply SetKey256_occupied. rewrite SetKey256_lookup. eauto.
Qed.

(** *** Keys are never removed, files are only appended to *)

Lemma keys_kept_refl km : keys_kept km km.
Proof. by repeat split. Qed.

Lemma keys_kept_trans km1 km2 km3 :
  keys_kept km1 km2 → keys_kept km2 km3 → keys_kept km1 km3.
Proof.
  intros (Hd1 & Ha1 & Hb1) (Hd2 & Ha2 & Hb2).
  split; [congruence|]. split; auto.
Qed.

Lemma assign128_kept index key km : keys_kept km (assign128 index key km).
Proof.
  split; [done|]. split; [|done].
  intros i Hi. cbn. rewrite lookup_insert. by case_decide.
Qed.

Lemma assign256_kept index key km : keys_kept km (assign256 index key km).
Proof.
  split; [done|]. split; [done|].
  intros i Hi. cbn. rewrite lookup_insert. by case_decide.
Qed.

Lemma LoadFromFile_line_kept is_title_keys km line :
  keys_kept km (LoadFromFile_line is_title_keys km line).
Proof.
  unfold LoadFromFile_line.
  destruct (getline_all "=" EmptyString line) as [|out0 [|out1 [|? ?]]];
    try apply keys_kept_refl.
  destruct is_title_keys; [apply assign128_kept|].
  destruct (file_id_find s128_file_id _); [apply assign128_kept|].
  destruct (file_id_find s256_file_id _);
    [apply assign256_kept|apply keys_kept_refl].
Qed.

Lemma LoadFromFile_lines_kept is_title_keys lines km :
  keys_kept km (foldl (LoadFromFile_line is_title_keys) km lines).
Proof.
  revert km. induction lines as [|line lines IH]; intros km.
  - apply keys_kept_refl.
  - cbn [foldl]. eapply keys_kept_trans; [|apply IH].
    apply LoadFromFile_line_kept.
Qed.

Lemma LoadFromFile_kept filename is_title_keys w :
  keys_kept (keys w) (keys (LoadFromFile filename is_title_keys w)).
Proof.
  unfold LoadFromFile. destruct (files w !! filename);
    [apply LoadFromFile_lines_kept|apply keys_kept_refl].
Qed.

Lemma AttemptLoadKeyFile_kept dir1 dir2 filename title w :
  keys_kept (keys w) (keys (AttemptLoadKeyFile dir1 dir2 filename title w)).
Proof.
  unfold AttemptLoadKeyFile.
  repeat case_match; try apply LoadFromFile_kept. apply keys_kept_refl.
Qed.

Lemma AttemptLoadKeyFile_files dir1 dir2 filename title w :
  files (AttemptLoadKeyFile dir1 dir2 filename title w) = files w.
Proof.
  unfold AttemptLoadKeyFile.
  repeat case_match; by rewrite ?LoadFromFile_files.
Qed.

(** What [WriteKeyToFile] leaves on disk: nothing new if the stream does
    not open; otherwise the old contents of the file, the comment block if
    the file did not exist, and the line of the key. *)
Lemma WriteKeyToFile_files {n} title_key keyname (key : array n) w :
  files (WriteKeyToFile title_key keyname key w) =
  let path := WriteKeyToFile_path title_key w in
  if ofstream_is_open path then
    <[path :=
        (default EmptyString (files w !! path)
         +:+ (if FileUtil_Exists w path then EmptyString else info_text))
        +:+ key_line keyname key]> (files w)
  else files w.
Proof.
  unfold WriteKeyToFile, WriteKeyToFile_path, autogenerated_path. cbv zeta.
  destruct title_key; cbn [negb];
    repeat case_match; rewrite ?AttemptLoadKeyFile_files;
    cbn [files negb] in *; try done;
    by rewrite ?string_app_nil_r.
Qed.

Lemma WriteKeyToFile_kept {n} title_key keyname (key : array n) w :
  keys_kept (keys w) (keys (WriteKeyToFile title_key keyname key w)).
Proof.
  unfold WriteKeyToFile. cbv zeta.
  case_match; [apply keys_kept_refl|].
  match goal with
  | |- keys_kept _ (keys (AttemptLoadKeyFile ?d1 ?d2 ?f ?t ?w')) =>
      apply (AttemptLoadKeyFile_kept d1 d2 f t w')
  end.
Qed.

Lemma SetKey128_kept id key f1 f2 w :
  keys_kept (keys w) (keys (SetKey128 id key f1 f2 w)).
Proof.
  unfold SetKey128. case_match; [apply keys_kept_refl|]. cbv zeta.
  set (w1 := if bool_decide (id = Titlekey) then _ else w).
  assert (keys_kept (keys w) (keys w1)) as Hw1.
  { subst w1. case_match; [apply WriteKeyToFile_kept|apply keys_kept_refl]. }
  cbn [keys]. eapply keys_kept_trans; [|apply assign128_kept].
  eapply keys_kept_trans; [exact Hw1|].
  destruct (file_id_find_if s128_file_id id f1 f2);
    [apply WriteKeyToFile_kept|apply keys_kept_refl].
Qed.

Lemma SetKey256_kept id key f1 f2 w :
  keys_kept (keys w) (keys (SetKey256 id key f1 f2 w)).
Proof.
  unfold SetKey256. case_match; [apply keys_kept_refl|].
  cbn [keys]. eapply keys_kept_trans; [|apply assign256_kept].
  case_match; [apply WriteKeyToFile_kept|apply keys_kept_refl].
Qed.

Lemma DeriveSDSeedLazy_kept save_43 sd_private w :
  keys_kept (keys w) (keys (DeriveSDSeedLazy save_43 sd_private w)).
Proof.
  unfold DeriveSDSeedLazy.
  repeat case_match; try apply keys_kept_refl. apply SetKey128_kept.
Qed.

Lemma run_operation_kept w op :
  keys_kept (keys w) (keys (run_operation w op)).
Proof.
  destruct op; cbn [run_operation].
  - apply LoadFromFile_kept.
  - apply AttemptLoadKeyFile_kept.
  - apply SetKey128_kept.
  - apply SetKey256_kept.
  - apply DeriveSDSeedLazy_kept.
Qed.

(** X3. No operation on a key manager removes a key or changes the
    key-set mode: whatever sequence of loads, [SetKey]s and lazy seed
    derivations is run, every index that [HasKey] reported before is still
    reported afterwards. *)
Theorem keys_never_removed (ops : list operation) (w : World) :
  dev_mode (keys (run_operations ops w)) = dev_mode (keys w) ∧
  (∀ id f1 f2,
     HasKey128 (keys w) id f1 f2 = true →
     HasKey128 (keys (run_operations ops w)) id f1 f2 = true) ∧
  (∀ id f1 f2,
     HasKey256 (keys w) id f1 f2 = true →
     HasKey256 (keys (run_operations ops w)) id f1 f2 = true).
Proof.
  assert (keys_kept (keys w) (keys (run_operations ops w)))
    as (Hmode & H128 & H256).
  { unfold run_operations. revert w.
    induction ops as [|op ops IH]; intros w; [apply keys_kept_refl|].
    cbn [foldl]. eapply keys_kept_trans; [apply run_operation_kept|apply IH]. }
  split; [done|].
  split; intros id f1 f2.
  - rewrite !HasKey128_spec. apply H128.
  - rewrite !HasKey256_spec. apply H256.
Qed.

Lemma string_app_assoc (a b c : string) :
  (a +:+ b) +:+ c = a +:+ (b +:+ c).
Proof.
  induction a as [|x a IH]; [done|]. by rewrite !string_app_cons, IH.
Qed.

Lemma files_extended_refl fs : files_extended fs fs.
Proof.
  intros path old Hold. exists EmptyString. by rewrite string_app_nil_r.
Qed.

Lemma files_extended_trans fs1 fs2 fs3 :
  files_extended fs1 fs2 → files_extended fs2 fs3 → files_extended fs1 fs3.
Proof.
  intros H12 H23 path old Hold.
  destruct (H12 _ _ Hold) as [s1 H2].
  destruct (H23 _ _ H2) as [s2 H3].
  exists (s1 +:+ s2). by rewrite <- string_app_assoc.
Qed.

Lemma WriteKeyToFile_path_autogenerated title_key w :
  WriteKeyToFile_path title_key w ∈ autogenerated_paths.
Proof.
  unfold WriteKeyToFile_path, autogenerated_paths.
  destruct title_key; [|destruct (dev_mode (keys w))]; set_solver.
Qed.

Lemma WriteKeyToFile_extended {n} title_key keyname (key : array n) w :
  files_extended (files w) (files (WriteKeyToFile title_key keyname key w)).
Proof.
  rewrite WriteKeyToFile_files. cbv zeta.
  case_match; [|apply files_extended_refl].
  intros path old Hold.
  destruct (decide (WriteKeyToFile_path title_key w = path)) as [<-|Hne].
  - rewrite lookup_insert_eq, Hold. unfold FileUtil_Exists.
    rewrite Hold, bool_decide_eq_true_2 by eauto.
    cbn [default]. rewrite string_app_nil_r. eauto.
  - rewrite lookup_insert_ne by done. exists EmptyString.
    by rewrite string_app_nil_r.
Qed.

Lemma WriteKeyToFile_confined {n} title_key keyname (key : array n) w path :
  path ∉ autogenerated_paths →
  files (WriteKeyToFile title_key keyname key w) !! path = files w !! path.
Proof.
  intros Hpath. rewrite WriteKeyToFile_files. cbv zeta.
  case_match; [|done]. apply lookup_insert_ne. intros <-.
  apply Hpath, WriteKeyToFile_path_autogenerated.
Qed.

Lemma files_appended_refl fs : files_appended fs fs.
Proof. split; [apply files_extended_refl|done]. Qed.

Lemma files_appended_trans fs1 fs2 fs3 :
  files_appended fs1 fs2 → files_appended fs2 fs3 → files_appended fs1 fs3.
Proof.
  intros [He1 Hc1] [He2 Hc2]. split.
  - by eapply files_extended_trans.
  - intros path Hpath. by rewrite Hc2, Hc1.
Qed.

Lemma WriteKeyToFile_appended {n} title_key keyname (key : array n) w :
  files_appended (files w) (files (WriteKeyToFile title_key keyname key w)).
Proof.
  split; [apply WriteKeyToFile_extended|].
  intros path. apply WriteKeyToFile_confined.
Qed.

Lemma SetKey128_appended id key f1 f2 w :
  files_appended (files w) (files (SetKey128 id key f1 f2 w)).
Proof.
  unfold SetKey128. case_match; [apply files_appended_refl|]. cbv zeta.
  set (w1 := if bool_decide (id = Titlekey) then _ else w).
  assert (files_appended (files w) (files w1)) as Hw1.
  { subst w1.
    case_match; [apply WriteKeyToFile_appended|apply files_appended_refl]. }
  cbn [files]. eapply files_appended_trans; [exact Hw1|].
  destruct (file_id_find_if s128_file_id id f1 f2);
    [apply WriteKeyToFile_appended|apply files_appended_refl].
Qed.

Lemma SetKey256_appended id key f1 f2 w :
  files_appended (files w) (files (SetKey256 id key f1 f2 w)).
Proof.
  unfold SetKey256. case_match; [apply files_appended_refl|]. cbv zeta.
  cbn [files].
  destruct (file_id_find_if s256_file_id id f1 f2);
    [apply WriteKeyToFile_appended|apply files_appended_refl].
Qed.

Lemma run_operation_appended w op :
  files_appended (files w) (files (run_operation w op)).
Proof.
  destruct op; cbn [run_operation].
  - rewrite LoadFromFile_files. apply files_appended_refl.
  - rewrite AttemptLoadKeyFile_files. apply files_appended_refl.
  - apply SetKey128_appended.
  - apply SetKey256_appended.
  - unfold DeriveSDSeedLazy.
    repeat case_match; try apply files_appended_refl.
    apply SetKey128_appended.
Qed.

(** X4. Whatever sequence of operations is run, the key manager never
    deletes or truncates a file: every file keeps its old contents as a
    prefix, and only the three autogenerated files of the keys directory
    can change at all. *)
Theorem files_only_appended (ops : list operation) (w : World) :
  (∀ path old,
     files w !! path = Some old →
     ∃ suffix, files (run_operations ops w) !! path = Some (old +:+ suffix)) ∧
  (∀ path,
     path ∉ autogenerated_paths →
     files (run_operations ops w) !! path = files w !! path).
Proof.
  enough (files_appended (files w) (files (run_operations ops w))) as [? ?]
    by done.
  unfold run_operations. revert w.
  induction ops as [|op ops IH]; intros w; [apply files_appended_refl|].
  cbn [foldl].
  eapply files_appended_trans; [apply run_operation_appended|apply IH].
Qed.

(** *** Loading key files *)

Lemma World_eq (w w' : World) :
  files w = files w' → keys w = keys w' → w = w'.
Proof. destruct w, w'. cbn. by intros -> ->. Qed.

(** X5. Loading a key file twice in a row gives the same key manager as
    loading it once. *)
Theorem LoadFromFile_twice (filename : string) (is_title_keys : bool)
    (w : World) :
  LoadFromFile filename is_title_keys (LoadFromFile filename is_title_keys w)
  = LoadFromFile filename is_title_keys w.
Proof.
  apply World_eq; [by rewrite !LoadFromFile_files|].
  apply KeyManager_eq.
  - apply LoadFromFile_kept.
  - apply map_eq. intros i.
    rewrite (LoadFromFile_s128 filename is_title_keys (LoadFromFile _ _ _)).
    rewrite LoadFromFile_files, LoadFromFile_s128.
    destruct (files w !! filename) as [file|]; [|done].
    by destruct (file_value128 is_title_keys file i).
  - apply map_eq. intros i.
    rewrite (LoadFromFile_s256 filename is_title_keys (LoadFromFile _ _ _)).
    rewrite LoadFromFile_files, LoadFromFile_s256.
    destruct (files w !! filename) as [file|]; [|done].
    by destruct (file_value256 is_title_keys file i).
Qed.

Lemma string_forall_app (P : ascii → bool) (a b : string) :
  string_forall P (a +:+ b) = string_forall P a && string_forall P b.
Proof.
  induction a as [|c a IH]; [done|].
  rewrite string_app_cons. cbn [string_forall]. by rewrite IH, andb_assoc.
Qed.

(** Every piece that [getline_all] yields is made of characters of the
    stream and of the piece in progress. *)
Lemma getline_all_forall (P : ascii → bool) (delim : ascii)
    (stream item : string) :
  string_forall P item = true →
  string_forall P stream = true →
  Forall (λ piece, string_forall P piece = true)
         (getline_all delim item stream).
Proof.
  revert item. induction stream as [|c stream IH]; intros item Hitem Hs.
  - cbn [getline_all]. case_match; [constructor|].
    by repeat constructor.
  - cbn [string_forall] in Hs. apply andb_true_iff in Hs as [Hc Hs].
    cbn [getline_all]. case_match.
    + constructor; [done|]. by apply IH.
    + apply IH; [|done]. rewrite string_forall_app, Hitem. cbn.
      by rewrite Hc.
Qed.

(** A stream without the delimiter is one piece, or none if it is empty. *)
Lemma getline_all_whole (delim : ascii) (s : string) :
  string_forall (λ c, negb (bool_decide (c = delim))) s = true →
  getline_all delim EmptyString s
  = if bool_decide (s = EmptyString) then [] else [s].
Proof.
  intros Hs.
  pose proof (getline_all_accum delim s EmptyString EmptyString Hs) as Hacc.
  rewrite string_app_nil_r, string_app_nil_l in Hacc. by rewrite Hacc.
Qed.

Lemma LoadFromFile_line_no_separator is_title_keys km line :
  string_forall (λ c, negb (bool_decide (c = "="%char))) line = true →
  LoadFromFile_line is_title_keys km line = km.
Proof.
  intros Hline. unfold LoadFromFile_line.
  rewrite getline_all_whole by done.
  by destruct (bool_decide (line = EmptyString)).
Qed.

(** X6. A key file that is missing, empty, or has no [=] anywhere (such as
    one that holds only the comment block of a new autogenerated file) loads
    as a no-op: it is not an error and no key changes. *)
Theorem LoadFromFile_without_entries (filename : string)
    (is_title_keys : bool) (w : World) :
  (∀ file,
     files w !! filename = Some file →
     string_forall (λ c, negb (bool_decide (c = "="%char))) file = true) →
  LoadFromFile filename is_title_keys w = w.
Proof.
  intros Hfile. unfold LoadFromFile.
  destruct (files w !! filename) as [file|]; [|done].
  specialize (Hfile file eq_refl).
  apply World_eq; [done|]. cbn [keys].
  pose proof (getline_all_forall _ LF file EmptyString eq_refl Hfile)
    as Hlines.
  revert Hlines. generalize (getline_all LF EmptyString file).
  intros lines. generalize (keys w).
  induction lines as [|line lines IH]; intros km Hlines; [done|].
  inversion Hlines as [|? ? Hline Hrest]; subst.
  cbn [foldl]. rewrite LoadFromFile_line_no_separator by done. by apply IH.
Qed.

Lemma last_value_Some {K V} `{EqDecision K}
    (entries : list (option (K * V))) (index : K) (v : V) :
  last_value entries index = Some v → Some (index, v) ∈ entries.
Proof.
  unfold last_value.
  induction entries as [|entry entries IH] using rev_ind; [done|].
  rewrite foldl_app. cbn [foldl]. rewrite elem_of_app, list_elem_of_singleton.
  destruct entry as [[i x]|]; [|by left; apply IH].
  case_decide as Hi; [|by left; apply IH].
  intros [= ->]. subst i. by right.
Qed.

Lemma line_entry128_index is_title_keys line index key :
  line_entry128 is_title_keys line = Some (index, key) →
  if is_title_keys then type index = Titlekey else index ∈ named128.
Proof.
  unfold line_entry128.
  destruct (line_pieces line) as [[name value]|]; [|done].
  cbn [mbind option_bind]. destruct is_title_keys.
  - by intros [= <- _].
  - unfold file_id_find.
    destruct (List.find _ s128_file_id) as [elem|] eqn:Hfind; [|done].
    cbn [fmap option_fmap option_map mbind option_bind].
    intros [= <- _]. apply find_some in Hfind as [Hin _].
    unfold named128. apply list_elem_of_fmap. exists elem. split; [done|].
    by apply list_elem_of_In.
Qed.

Lemma line_entry256_index is_title_keys line index key :
  line_entry256 is_title_keys line = Some (index, key) →
  is_title_keys = false ∧ index ∈ named256.
Proof.
  unfold line_entry256.
  destruct (line_pieces line) as [[name value]|]; [|done].
  cbn [mbind option_bind]. destruct is_title_keys; [done|].
  destruct (file_id_find s128_file_id _); [done|].
  unfold file_id_find.
  destruct (List.find _ s256_file_id) as [elem|] eqn:Hfind; [|done].
  cbn [fmap option_fmap option_map mbind option_bind].
  intros [= <- _]. split; [done|].
  apply find_some in Hfind as [Hin _].
  unfold named256. apply list_elem_of_fmap. exists elem. split; [done|].
  by apply list_elem_of_In.
Qed.

Lemma named128_not_Titlekey index : index ∈ named128 → type index ≠ Titlekey.
Proof.
  intros Hin Htype. revert Htype.
  unfold named128, s128_file_id in Hin. cbn [fmap list_fmap snd] in Hin.
  rewrite !elem_of_cons in Hin.
  repeat (destruct Hin as [->|Hin]; [done|]). by apply elem_of_nil in Hin.
Qed.

(** X7. A load changes only slots of the kind its mode is for: in
    title-key mode only [Titlekey] slots of the 128-bit store, and never
    the 256-bit store; in general mode only slots that have a name in the
    tables, and never a [Titlekey] slot. *)
Theorem LoadFromFile_changes_only (filename : string) (is_title_keys : bool)
    (w : World) :
  let w' := LoadFromFile filename is_title_keys w in
  (∀ i,
     s128_keys (keys w') !! i ≠ s128_keys (keys w) !! i →
     if is_title_keys then type i = Titlekey
     else i ∈ named128 ∧ type i ≠ Titlekey) ∧
  (∀ i,
     s256_keys (keys w') !! i ≠ s256_keys (keys w) !! i →
     is_title_keys = false ∧ i ∈ named256).
Proof.
  cbv zeta. split; intros i.
  - rewrite LoadFromFile_s128.
    destruct (files w !! filename) as [file|]; [|done].
    destruct (file_value128 is_title_keys file i) as [key|] eqn:Hvalue;
      [|done].
    intros _. apply last_value_Some, list_elem_of_fmap in Hvalue
      as (line & Hentry & _).
    symmetry in Hentry. apply line_entry128_index in Hentry.
    destruct is_title_keys; [done|].
    split; [done|]. by apply named128_not_Titlekey.
  - rewrite LoadFromFile_s256.
    destruct (files w !! filename) as [file|]; [|done].
    destruct (file_value256 is_title_keys file i) as [key|] eqn:Hvalue;
      [|done].
    intros _. apply last_value_Some, list_elem_of_fmap in Hvalue
      as (line & Hentry & _).
    symmetry in Hentry. by apply line_entry256_index in Hentry.
Qed.

(** *** The name tables *)

Lemma file_id_find_In {K} (table : list (string * KeyIndex K)) name index :
  file_id_find table name = Some index → In (name, index) table.
Proof.
  unfold file_id_find.
  destruct (List.find _ table) as [[n i]|] eqn:Hfind; [|done].
  cbn [fmap option_fmap option_map snd]. intros [= ->].
  apply find_some in Hfind as [Hin Hname].
  apply bool_decide_eq_true in Hname. cbn in Hname. by subst n.
Qed.

Lemma file_id_find_if_In `{EqDecision K}
    (table : list (string * KeyIndex K)) id f1 f2 name index :
  file_id_find_if table id f1 f2 = Some (name, index) →
  In (name, index) table ∧ index = MkKeyIndex id f1 f2.
Proof.
  unfold file_id_find_if. intros Hfind.
  apply find_some in Hfind as [Hin Heq]. split; [done|].
  apply bool_decide_eq_true in Heq.
  destruct index as [t a b]. cbn [type field1 field2 snd] in Heq. congruence.
Qed.

(** What holds for every entry of the two tables. *)
Lemma s128_file_id_entries name index :
  In (name, index) s128_file_id →
  file_id_find s128_file_id name = Some index ∧
  file_id_find_if s128_file_id (type index) (field1 index) (field2 index)
    = Some (name, index) ∧
  file_id_find s256_file_id name = None ∧
  transform_tolower name = name ∧
  string_forall not_separator name = true ∧
  string_forall (λ c, negb (bool_decide (c = LF))) name = true.
Proof.
  intros Hin. unfold s128_file_id in Hin. cbn [In] in Hin.
  repeat (destruct Hin as [[= <- <-]|Hin]; [by vm_compute|]). done.
Qed.

Lemma s256_file_id_entries name index :
  In (name, index) s256_file_id →
  file_id_find s256_file_id name = Some index ∧
  file_id_find_if s256_file_id (type index) (field1 index) (field2 index)
    = Some (name, index) ∧
  file_id_find s128_file_id name = None ∧
  transform_tolower name = name ∧
  string_forall not_separator name = true ∧
  string_forall (λ c, negb (bool_decide (c = LF))) name = true.
Proof.
  intros Hin. unfold s256_file_id in Hin. cbn [In] in Hin.
  repeat (destruct Hin as [[= <- <-]|Hin]; [by vm_compute|]). done.
Qed.

(** X8. The name tables are one-to-one: looking a name up and then
    searching the table for the resulting index gives the same name back,
    and the other way round; no name is in both tables.  So a key is
    always written back under the name it is loaded by. *)
Theorem name_tables_one_to_one :
  (∀ name index,
     file_id_find s128_file_id name = Some index ↔
     file_id_find_if s128_file_id (type index) (field1 index) (field2 index)
       = Some (name, index)) ∧
  (∀ name index,
     file_id_find s256_file_id name = Some index ↔
     file_id_find_if s256_file_id (type index) (field1 index) (field2 index)
       = Some (name, index)) ∧
  (∀ name,
     is_Some (file_id_find s128_file_id name) →
     file_id_find s256_file_id name = None).
Proof.
  split; [|split].
  - intros name index. split; intros Hfind.
    + by apply file_id_find_In, s128_file_id_entries in Hfind as (_ & ? & _).
    + by apply file_id_find_if_In in Hfind
        as [(? & _)%s128_file_id_entries _].
  - intros name index. split; intros Hfind.
    + by apply file_id_find_In, s256_file_id_entries in Hfind as (_ & ? & _).
    + by apply file_id_find_if_In in Hfind
        as [(? & _)%s256_file_id_entries _].
  - intros name [index Hfind].
    by apply file_id_find_In, s128_file_id_entries in Hfind as (_ & _ & ? & _).
Qed.

(** *** Parsing a line of a general key file *)

Lemma line_pieces_clean (name value : string) :
  string_forall not_separator name = true →
  string_forall not_separator value = true →
  line_pieces (name +:+ " = " +:+ value) = Some (name, value).
Proof.
  intros Hname Hvalue. unfold line_pieces.
  assert (∀ d s, not_separator d = false →
                 string_forall not_separator s = true →
                 string_forall (λ c, negb (bool_decide (c = d))) s = true)
    as Hnot.
  { intros d s Hd. apply string_forall_impl. intros c Hc.
    apply negb_true_iff, bool_decide_eq_false_2. intros ->. congruence. }
  change (" = " +:+ value) with (String " " (String "=" (String " " value))).
  rewrite getline_all_accum by (by apply Hnot).
  rewrite string_app_nil_l.
  rewrite getline_all_other by done.
  rewrite getline_all_delim.
  rewrite getline_all_other by done.
  rewrite string_app_nil_l.
  rewrite getline_all_last by (by apply Hnot).
  rewrite erase_remove_app. cbn [erase_remove].
  rewrite !(bool_decide_eq_true_2 (" "%char = " "%char)) by done.
  rewrite !erase_remove_id by (by apply Hnot).
  by rewrite string_app_nil_r.
Qed.

Lemma LoadFromFile_line_general km (name value : string) :
  string_forall not_separator name = true →
  string_forall not_separator value = true →
  LoadFromFile_line false km (name +:+ " = " +:+ value) =
  match file_id_find s128_file_id (transform_tolower name) with
  | Some index => assign128 index (HexStringToArray 16 value) km
  | None =>
      match file_id_find s256_file_id (transform_tolower name) with
      | Some index => assign256 index (HexStringToArray 32 value) km
      | None => km
      end
  end.
Proof.
  intros Hname Hvalue. unfold LoadFromFile_line.
  pose proof (line_pieces_clean name value Hname Hvalue) as Hpieces.
  unfold line_pieces in Hpieces.
  destruct (getline_all "=" EmptyString (name +:+ " = " +:+ value))
    as [|out0 [|out1 [|? ?]]]; try done.
  injection Hpieces as -> ->.
  destruct (file_id_find s128_file_id _) as [index|];
    [by rewrite KeyIndex_eta|].
  destruct (file_id_find s256_file_id _) as [index|]; [|done].
  by rewrite KeyIndex_eta.
Qed.

(** X9. A line [name = value] of a general key file, with the name in any
    letter case: if the lower-cased name is in the 128-bit table, the
    line's index is occupied afterwards and [GetKey] returns the decoded
    value, and the 256-bit store is untouched; likewise for a name of the
    256-bit table; a name in neither table leaves the key manager
    unchanged. *)
Theorem general_key_line_round_trip (km : KeyManager) (name value : string) :
  string_forall not_separator name = true →
  string_forall not_separator value = true →
  let km' := LoadFromFile_line false km (name +:+ " = " +:+ value) in
  (∀ index,
     file_id_find s128_file_id (transform_tolower name) = Some index →
     HasKey128 km' (type index) (field1 index) (field2 index) = true ∧
     GetKey128 km' (type index) (field1 index) (field2 index)
       = HexStringToArray 16 value ∧
     s256_keys km' = s256_keys km) ∧
  (∀ index,
     file_id_find s256_file_id (transform_tolower name) = Some index →
     HasKey256 km' (type index) (field1 index) (field2 index) = true ∧
     GetKey256 km' (type index) (field1 index) (field2 index)
       = HexStringToArray 32 value ∧
     s128_keys km' = s128_keys km) ∧
  (file_id_find s128_file_id (transform_tolower name) = None →
   file_id_find s256_file_id (transform_tolower name) = None →
   km' = km).
Proof.
  intros Hname Hvalue. cbv zeta.
  rewrite LoadFromFile_line_general by done.
  split; [|split].
  - intros index Hfind. rewrite Hfind.
    assert (s128_keys (assign128 index (HexStringToArray 16 value) km)
            !! MkKeyIndex (type index) (field1 index) (field2 index)
            = Some (HexStringToArray 16 value)) as Hnew.
    { rewrite KeyIndex_eta. cbn. apply lookup_insert_eq. }
    split; [apply HasKey128_spec; eauto|].
    split; [by apply GetKey128_present|done].
  - intros index Hfind.
    apply file_id_find_In, s256_file_id_entries in Hfind
      as (Hfind & _ & Hnot128 & _).
    rewrite Hnot128, Hfind.
    assert (s256_keys (assign256 index (HexStringToArray 32 value) km)
            !! MkKeyIndex (type index) (field1 index) (field2 index)
            = Some (HexStringToArray 32 value)) as Hnew.
    { rewrite KeyIndex_eta. cbn. apply lookup_insert_eq. }
    split; [apply HasKey256_spec; eauto|].
    split; [by apply GetKey256_present|done].
  - by intros -> ->.
Qed.

(** *** Writing a key back and loading it again *)

(** A text that ends with a line break and a non-empty line has that line
    as its last line. *)
Lemma getline_all_append_line (s item line : string) :
  string_forall (λ c, negb (bool_decide (c = LF))) line = true →
  line ≠ EmptyString →
  ∃ pre, getline_all LF item (s +:+ String LF line) = pre ++ [line].
Proof.
  intros Hline Hne. revert item.
  induction s as [|c s IH]; intros item.
  - rewrite string_app_nil_l, getline_all_delim, getline_all_whole by done.
    rewrite bool_decide_eq_false_2 by done. by exists [item].
  - rewrite string_app_cons. cbn [getline_all]. case_match.
    + destruct (IH EmptyString) as [pre ->]. by exists (item :: pre).
    + apply IH.
Qed.

Lemma last_value_snoc {K V} `{EqDecision K}
    (entries : list (option (K * V))) (index : K) (v : V) :
  last_value (entries ++ [Some (index, v)]) index = Some v.
Proof.
  unfold last_value. rewrite foldl_app. cbn [foldl].
  by rewrite decide_True.
Qed.

Lemma is_hex_digit_chars (s : string) :
  string_forall is_hex_digit s = true →
  string_forall not_separator s = true ∧
  string_forall (λ c, negb (bool_decide (c = LF))) s = true.
Proof.
  intros Hs. split; revert Hs; apply string_forall_impl; intros c Hc.
  - unfold not_separator. apply andb_true_iff.
    split; by apply is_hex_digit_not.
  - by apply is_hex_digit_not.
Qed.

Lemma key_line_last_line {n} (text keyname : string) (key : array n) :
  string_forall (λ c, negb (bool_decide (c = LF))) keyname = true →
  string_forall is_hex_digit (HexArrayToString key) = true →
  ∃ pre,
    getline_all LF EmptyString (text +:+ key_line keyname key)
    = pre ++ [keyname +:+ " = " +:+ HexArrayToString key].
Proof.
  intros Hname [_ Hhex]%is_hex_digit_chars. unfold key_line.
  apply getline_all_append_line.
  - rewrite string_forall_app, Hname.
    change (" = " +:+ HexArrayToString key)
      with (String " " (String "=" (String " " (HexArrayToString key)))).
    cbn [string_forall]. by rewrite Hhex.
  - destruct keyname; [|done].
    by rewrite string_app_nil_l.
Qed.

(** In a file that [WriteKeyToFile] has just written for a named key, the
    value of the key's index is the decoded hexadecimal text. *)
Lemma file_value128_key_line (text name : string) index (key : Key128) :
  In (name, index) s128_file_id →
  string_forall is_hex_digit (HexArrayToString key) = true →
  file_value128 false (text +:+ key_line name key) index
  = Some (HexStringToArray 16 (HexArrayToString key)).
Proof.
  intros (Hfind & _ & _ & Hlower & Hclean & Hlf)%s128_file_id_entries Hhex.
  unfold file_value128.
  destruct (key_line_last_line text name key Hlf Hhex) as [pre ->].
  rewrite fmap_app. cbn [fmap list_fmap].
  unfold line_entry128 at 2.
  rewrite line_pieces_clean by (done || by apply is_hex_digit_chars).
  cbn [mbind option_bind]. rewrite Hlower, Hfind. cbn [mbind option_bind].
  apply last_value_snoc.
Qed.

Lemma file_value256_key_line (text name : string) index (key : Key256) :
  In (name, index) s256_file_id →
  string_forall is_hex_digit (HexArrayToString key) = true →
  file_value256 false (text +:+ key_line name key) index
  = Some (HexStringToArray 32 (HexArrayToString key)).
Proof.
  intros (Hfind & _ & Hnot128 & Hlower & Hclean & Hlf)%s256_file_id_entries
    Hhex.
  unfold file_value256.
  destruct (key_line_last_line text name key Hlf Hhex) as [pre ->].
  rewrite fmap_app. cbn [fmap list_fmap].
  unfold line_entry256 at 2.
  rewrite line_pieces_clean by (done || by apply is_hex_digit_chars).
  cbn [mbind option_bind]. rewrite Hlower, Hnot128, Hfind.
  cbn [mbind option_bind].
  apply last_value_snoc.
Qed.

Lemma AttemptLoadKeyFile_primary dir1 dir2 filename title w content :
  files w !! (dir1 +:+ DIR_SEP +:+ filename) = Some content →
  AttemptLoadKeyFile dir1 dir2 filename title w
  = LoadFromFile (dir1 +:+ DIR_SEP +:+ filename) title w.
Proof.
  intros Hfile. unfold AttemptLoadKeyFile, FileUtil_Exists.
  by rewrite Hfile, bool_decide_eq_true_2 by eauto.
Qed.

Lemma file_value128_title_other file i :
  type i ≠ Titlekey → file_value128 true file i = None.
Proof.
  intros Htype. unfold file_value128.
  destruct (last_value _ i) as [key|] eqn:Hvalue; [|done].
  apply last_value_Some, list_elem_of_fmap in Hvalue as (line & Hentry & _).
  symmetry in Hentry. by apply line_entry128_index in Hentry.
Qed.

Lemma file_value256_title file i : file_value256 true file i = None.
Proof.
  unfold file_value256.
  destruct (last_value _ i) as [key|] eqn:Hvalue; [|done].
  apply last_value_Some, list_elem_of_fmap in Hvalue as (line & Hentry & _).
  symmetry in Hentry. by apply line_entry256_index in Hentry as [? _].
Qed.

(** A load in title-key mode leaves every other slot alone. *)
Lemma AttemptLoadKeyFile_title_frame dir1 dir2 filename w :
  (∀ i, type i ≠ Titlekey →
        s128_keys (keys (AttemptLoadKeyFile dir1 dir2 filename true w)) !! i
        = s128_keys (keys w) !! i) ∧
  (∀ i, s256_keys (keys (AttemptLoadKeyFile dir1 dir2 filename true w)) !! i
        = s256_keys (keys w) !! i).
Proof.
  unfold AttemptLoadKeyFile. split; intros i.
  - intros Htype.
    repeat case_match; rewrite ?LoadFromFile_s128; try done;
      case_match; by rewrite ?file_value128_title_other.
  - repeat case_match; rewrite ?LoadFromFile_s256; try done;
      case_match; by rewrite ?file_value256_title.
Qed.

(** The constructor as the four loads it performs. *)
Lemma KeyManager_new_loads disk :
  KeyManager_new disk =
  AttemptLoadKeyFile yuzu_keys_dir yuzu_keys_dir "title.keys_autogenerated" true
    (AttemptLoadKeyFile yuzu_keys_dir hactool_keys_dir "title.keys" true
       (AttemptLoadKeyFile yuzu_keys_dir yuzu_keys_dir autogenerated_key_file
          false
          (AttemptLoadKeyFile yuzu_keys_dir hactool_keys_dir base_key_file
             false
             (MkWorld disk (MkKeyManager use_dev_keys ∅ ∅))))).
Proof.
  unfold KeyManager_new, base_key_file, autogenerated_key_file.
  by destruct use_dev_keys.
Qed.

(** After construction, a slot that is not a title key holds what the
    autogenerated file of the mode gives for it, when it gives a value. *)
Lemma KeyManager_new_autogenerated disk content :
  disk !! autogenerated_path autogenerated_key_file = Some content →
  (∀ i key,
     type i ≠ Titlekey →
     file_value128 false content i = Some key →
     s128_keys (keys (KeyManager_new disk)) !! i = Some key) ∧
  (∀ i key,
     file_value256 false content i = Some key →
     s256_keys (keys (KeyManager_new disk)) !! i = Some key).
Proof.
  intros Hfile. rewrite KeyManager_new_loads.
  set (w1 := AttemptLoadKeyFile yuzu_keys_dir hactool_keys_dir base_key_file
               false _).
  assert (files w1 !! (yuzu_keys_dir +:+ DIR_SEP +:+ autogenerated_key_file)
          = Some content) as Hfile1.
  { subst w1. by rewrite AttemptLoadKeyFile_files. }
  split.
  - intros i key Htype Hvalue.
    rewrite (proj1 (AttemptLoadKeyFile_title_frame _ _ _ _)) by done.
    rewrite (proj1 (AttemptLoadKeyFile_title_frame _ _ _ _)) by done.
    rewrite (AttemptLoadKeyFile_primary _ _ _ _ _ _ Hfile1).
    by rewrite LoadFromFile_s128, Hfile1, Hvalue.
  - intros i key Hvalue.
    rewrite !(proj2 (AttemptLoadKeyFile_title_frame _ _ _ _)).
    rewrite (AttemptLoadKeyFile_primary _ _ _ _ _ _ Hfile1).
    by rewrite LoadFromFile_s256, Hfile1, Hvalue.
Qed.

(** The file a successful [WriteKeyToFile] for a general key leaves. *)
Lemma WriteKeyToFile_general_file {n} keyname (key : array n) w :
  dev_mode (keys w) = use_dev_keys →
  ofstream_is_open (autogenerated_path autogenerated_key_file) = true →
  ∃ text,
    files (WriteKeyToFile false keyname key w)
    !! autogenerated_path autogenerated_key_file
    = Some (text +:+ key_line keyname key).
Proof.
  intros Hmode Hopen. rewrite WriteKeyToFile_files. cbv zeta.
  unfold WriteKeyToFile_path. rewrite Hmode.
  fold autogenerated_key_file. rewrite Hopen, lookup_insert_eq. eauto.
Qed.

(** X10. A named key that [SetKey] stores survives a restart: if the
    autogenerated file can be written and the hexadecimal codec reads back
    the text it produces for the key, a key manager constructed afterwards
    from the files on disk has the key at the same index with the same
    value.  This holds for the 128-bit and for the 256-bit store. *)
Theorem written_key_survives_restart (w : World) :
  dev_mode (keys w) = use_dev_keys →
  ofstream_is_open (autogenerated_path autogenerated_key_file) = true →
  (∀ id f1 f2 (key : Key128),
     HasKey128 (keys w) id f1 f2 = false →
     is_Some (file_id_find_if s128_file_id id f1 f2) →
     string_forall is_hex_digit (HexArrayToString key) = true →
     HexStringToArray 16 (HexArrayToString key) = key →
     let fresh := KeyManager_new (files (SetKey128 id key f1 f2 w)) in
     HasKey128 (keys fresh) id f1 f2 = true ∧
     GetKey128 (keys fresh) id f1 f2 = key) ∧
  (∀ id f1 f2 (key : Key256),
     HasKey256 (keys w) id f1 f2 = false →
     is_Some (file_id_find_if s256_file_id id f1 f2) →
     string_forall is_hex_digit (HexArrayToString key) = true →
     HexStringToArray 32 (HexArrayToString key) = key →
     let fresh := KeyManager_new (files (SetKey256 id key f1 f2 w)) in
     HasKey256 (keys fresh) id f1 f2 = true ∧
     GetKey256 (keys fresh) id f1 f2 = key).
Proof.
  intros Hmode Hopen. split.
  - intros id f1 f2 key Habsent [[name index] Hfind] Hhex Hcodec. cbv zeta.
    pose proof (file_id_find_if_In _ _ _ _ _ _ Hfind) as [Hin ->].
    assert (id ≠ Titlekey) as Hid.
    { intros ->. by rewrite file_id_find_if_Titlekey in Hfind. }
    assert (files (SetKey128 id key f1 f2 w)
            = files (WriteKeyToFile false name key w)) as ->.
    { unfold SetKey128. unfold HasKey128 in Habsent. rewrite Habsent.
      rewrite (bool_decide_eq_false_2 (id = Titlekey)) by done.
      by rewrite Hfind. }
    destruct (WriteKeyToFile_general_file name key w Hmode Hopen)
      as [text Hfile].
    pose proof (proj1 (KeyManager_new_autogenerated _ _ Hfile)
                  (MkKeyIndex id f1 f2) key Hid) as Hnew.
    rewrite file_value128_key_line, Hcodec in Hnew by done.
    specialize (Hnew eq_refl).
    split; [apply HasKey128_spec; eauto|by apply GetKey128_present].
  - intros id f1 f2 key Habsent [[name index] Hfind] Hhex Hcodec. cbv zeta.
    pose proof (file_id_find_if_In _ _ _ _ _ _ Hfind) as [Hin ->].
    assert (files (SetKey256 id key f1 f2 w)
            = files (WriteKeyToFile false name key w)) as ->.
    { unfold SetKey256. unfold HasKey256 in Habsent. rewrite Habsent.
      by rewrite Hfind. }
    destruct (WriteKeyToFile_general_file name key w Hmode Hopen)
      as [text Hfile].
    pose proof (proj2 (KeyManager_new_autogenerated _ _ Hfile)
                  (MkKeyIndex id f1 f2) key) as Hnew.
    rewrite file_value256_key_line, Hcodec in Hnew by done.
    specialize (Hnew eq_refl).
    split; [apply HasKey256_spec; eauto|by apply GetKey256_present].
Qed.

Lemma to_N_u8_of_N (n : N) : Byte.to_N (u8_of_N n) = (n mod 256)%N.
Proof.
  unfold u8_of_N.
  destruct (Byte.of_N (n mod 256)) as [b|] eqn:Hb.
  - by apply Byte.to_of_N in Hb.
  - apply Byte.of_N_None_iff in Hb.
    pose proof (N.mod_upper_bound n 256 ltac:(done)). lia.
Qed.

(** Reading back the [k] bytes written for an integer that fits in them
    gives the integer. *)
Lemma le_to_N_N_to_le (k : nat) (n : N) :
  (n < 256 ^ N.of_nat k)%N → le_to_N (vec_to_list (N_to_le k n)) = n.
Proof.
  revert n. induction k as [|k IH]; intros n Hn.
  - cbn in *. lia.
  - cbn [N_to_le vec_to_list le_to_N]. rewrite to_N_u8_of_N.
    rewrite IH.
    + pose proof (N.div_mod n 256 ltac:(done)). lia.
    + rewrite Nat2N.inj_succ, N.pow_succ_r' in Hn.
      apply N.Div0.div_lt_upper_bound. lia.
Qed.

Lemma memcpy_u128_memcpy_Key128 (lo hi : u64) :
  (lo < 2 ^ 64)%N → (hi < 2 ^ 64)%N →
  memcpy_u128 (memcpy_Key128 lo hi) = (lo, hi).
Proof.
  intros Hlo Hhi. unfold memcpy_u128, memcpy_Key128.
  assert (vec_to_list (vapp (N_to_le 8 lo) (N_to_le 8 hi))
          = vec_to_list (N_to_le 8 lo) ++ vec_to_list (N_to_le 8 hi)) as Happ
    by exact (vec_to_list_app (N_to_le 8 lo) (N_to_le 8 hi)).
  change (vec_to_list (n:=16) (vapp (N_to_le 8 lo) (N_to_le 8 hi)))
    with (vec_to_list (vapp (N_to_le 8 lo) (N_to_le 8 hi))).
  rewrite Happ.
  pose proof (length_vec_to_list (N_to_le 8 lo)) as Hl1.
  pose proof (length_vec_to_list (N_to_le 8 hi)) as Hl2.
  rewrite take_app_length' by done.
  rewrite drop_app_length' by done.
  rewrite take_ge by lia.
  by rewrite !le_to_N_N_to_le by done.
Qed.

Lemma file_value128_title_line (text : string) (rights_id key : Key128) :
  string_forall is_hex_digit (HexArrayToString rights_id) = true →
  string_forall is_hex_digit (HexArrayToString key) = true →
  let raw := HexStringToArray 16 (HexArrayToString rights_id) in
  file_value128 true (text +:+ key_line (HexArrayToString rights_id) key)
    (MkKeyIndex Titlekey (memcpy_u128 raw).2 (memcpy_u128 raw).1)
  = Some (HexStringToArray 16 (HexArrayToString key)).
Proof.
  intros Hrid Hkey. cbv zeta. unfold file_value128.
  destruct (key_line_last_line text (HexArrayToString rights_id) key)
    as [pre ->]; [by apply is_hex_digit_chars|done|].
  rewrite fmap_app. cbn [fmap list_fmap].
  unfold line_entry128 at 2.
  rewrite line_pieces_clean by (by apply is_hex_digit_chars).
  cbn [mbind option_bind].
  apply last_value_snoc.
Qed.

(** X11. A title key that [SetKey] stores survives a restart: if the
    autogenerated title-key file can be written and the hexadecimal codec
    reads back the text it produces for the rights identifier and for the
    key, a key manager constructed afterwards has the key at the same
    [Titlekey] index, with both 64-bit halves in place. *)
Theorem written_title_key_survives_restart
    (w : World) (f1 f2 : u64) (key : Key128) :
  HasKey128 (keys w) Titlekey f1 f2 = false →
  (f1 < 2 ^ 64)%N → (f2 < 2 ^ 64)%N →
  ofstream_is_open (autogenerated_path "title.keys_autogenerated") = true →
  let rights_id := memcpy_Key128 f2 f1 in
  string_forall is_hex_digit (HexArrayToString rights_id) = true →
  HexStringToArray 16 (HexArrayToString rights_id) = rights_id →
  string_forall is_hex_digit (HexArrayToString key) = true →
  HexStringToArray 16 (HexArrayToString key) = key →
  let fresh := KeyManager_new (files (SetKey128 Titlekey key f1 f2 w)) in
  HasKey128 (keys fresh) Titlekey f1 f2 = true ∧
  GetKey128 (keys fresh) Titlekey f1 f2 = key.
Proof.
  intros Habsent Hf1 Hf2 Hopen rights_id Hrid Hrid_codec Hkey Hkey_codec.
  cbv zeta.
  assert (files (SetKey128 Titlekey key f1 f2 w)
          = files (WriteKeyToFile true (HexArrayToString rights_id) key w))
    as ->.
  { unfold SetKey128. unfold HasKey128 in Habsent. rewrite Habsent.
    rewrite (bool_decide_eq_true_2 (Titlekey = Titlekey)) by done.
    by rewrite file_id_find_if_Titlekey. }
  assert (∃ text,
    files (WriteKeyToFile true (HexArrayToString rights_id) key w)
    !! (yuzu_keys_dir +:+ DIR_SEP +:+ "title.keys_autogenerated")
    = Some (text +:+ key_line (HexArrayToString rights_id) key))
    as [text Hfile].
  { rewrite WriteKeyToFile_files. cbv zeta. unfold WriteKeyToFile_path.
    rewrite Hopen. unfold autogenerated_path.
    rewrite lookup_insert_eq. eauto. }
  pose proof (file_value128_title_line text rights_id key Hrid Hkey)
    as Hvalue.
  cbv zeta in Hvalue. rewrite Hrid_codec, Hkey_codec in Hvalue.
  subst rights_id. rewrite memcpy_u128_memcpy_Key128 in Hvalue by done.
  cbn [fst snd] in Hvalue.
  assert (s128_keys
            (keys (KeyManager_new
                     (files (WriteKeyToFile true
                               (HexArrayToString (memcpy_Key128 f2 f1))
                               key w))))
          !! MkKeyIndex Titlekey f1 f2 = Some key) as Hnew.
  { rewrite KeyManager_new_loads.
    erewrite AttemptLoadKeyFile_primary
      by (rewrite !AttemptLoadKeyFile_files; exact Hfile).
    rewrite LoadFromFile_s128, !AttemptLoadKeyFile_files. cbn [files].
    by rewrite Hfile, Hvalue. }
  split; [apply HasKey128_spec; eauto|by apply GetKey128_present].
Qed.

(** *** The constructor and the key-file check *)

Lemma LoadFromFile_slots_known filename is_title_keys w :
  slots_known (keys w) →
  slots_known (keys (LoadFromFile filename is_title_keys w)).
Proof.
  intros [H128 H256]. split; intros i.
  - rewrite LoadFromFile_s128.
    destruct (files w !! filename) as [file|]; [|apply H128].
    destruct (file_value128 is_title_keys file i) as [key|] eqn:Hvalue;
      [|apply H128].
    intros _. apply last_value_Some, list_elem_of_fmap in Hvalue
      as (line & Hentry & _).
    symmetry in Hentry. apply line_entry128_index in Hentry.
    destruct is_title_keys; [by left|by right].
  - rewrite LoadFromFile_s256.
    destruct (files w !! filename) as [file|]; [|apply H256].
    destruct (file_value256 is_title_keys file i) as [key|] eqn:Hvalue;
      [|apply H256].
    intros _. apply last_value_Some, list_elem_of_fmap in Hvalue
      as (line & Hentry & _).
    symmetry in Hentry. by apply line_entry256_index in Hentry as [_ ?].
Qed.

Lemma AttemptLoadKeyFile_slots_known dir1 dir2 filename title w :
  slots_known (keys w) →
  slots_known (keys (AttemptLoadKeyFile dir1 dir2 filename title w)).
Proof.
  intros Hw. unfold AttemptLoadKeyFile.
  repeat case_match; try done; by apply LoadFromFile_slots_known.
Qed.

(** X12. The constructor only reads: it leaves the files as they are, sets
    the key-set mode from the configuration, and every slot it fills is
    either a title-key slot or a slot that has a name in the tables. *)
Theorem KeyManager_new_invariants (disk : gmap string string) :
  files (KeyManager_new disk) = disk ∧
  dev_mode (keys (KeyManager_new disk)) = use_dev_keys ∧
  (∀ id f1 f2,
     HasKey128 (keys (KeyManager_new disk)) id f1 f2 = true →
     id = Titlekey ∨ MkKeyIndex id f1 f2 ∈ named128) ∧
  (∀ id f1 f2,
     HasKey256 (keys (KeyManager_new disk)) id f1 f2 = true →
     MkKeyIndex id f1 f2 ∈ named256).
Proof.
  rewrite KeyManager_new_loads.
  split; [by rewrite !AttemptLoadKeyFile_files|].
  split.
  { pose proof AttemptLoadKeyFile_kept as Hkept. unfold keys_kept in Hkept.
    rewrite (proj1 (Hkept _ _ _ _ _)), (proj1 (Hkept _ _ _ _ _)),
      (proj1 (Hkept _ _ _ _ _)), (proj1 (Hkept _ _ _ _ _)). done. }
  assert (slots_known (MkKeyManager use_dev_keys ∅ ∅)) as Hempty.
  { split; intros i [k Hk]; cbn in Hk; by rewrite lookup_empty in Hk. }
  pose proof (AttemptLoadKeyFile_slots_known yuzu_keys_dir yuzu_keys_dir
    "title.keys_autogenerated" true _
    (AttemptLoadKeyFile_slots_known yuzu_keys_dir hactool_keys_dir
       "title.keys" true _
       (AttemptLoadKeyFile_slots_known yuzu_keys_dir yuzu_keys_dir
          autogenerated_key_file false _
          (AttemptLoadKeyFile_slots_known yuzu_keys_dir hactool_keys_dir
             base_key_file false (MkWorld disk _) Hempty))))
    as [H128 H256].
  split; intros id f1 f2.
  - rewrite HasKey128_spec. apply (H128 (MkKeyIndex id f1 f2)).
  - rewrite HasKey256_spec. apply (H256 (MkKeyIndex id f1 f2)).
Qed.

Lemma AttemptLoadKeyFile_absent dir1 dir2 filename title w :
  FileUtil_Exists w (dir2 +:+ DIR_SEP +:+ filename)
  || FileUtil_Exists w (dir1 +:+ DIR_SEP +:+ filename) = false →
  AttemptLoadKeyFile dir1 dir2 filename title w = w.
Proof.
  intros [H2 H1]%orb_false_iff. unfold AttemptLoadKeyFile.
  by rewrite H1, H2.
Qed.

Lemma FileUtil_Exists_kept w w' path :
  files_extended (files w) (files w') →
  FileUtil_Exists w path = true → FileUtil_Exists w' path = true.
Proof.
  unfold FileUtil_Exists. intros Hext [old Hold]%bool_decide_eq_true.
  destruct (Hext _ _ Hold) as [suffix Hnew].
  apply bool_decide_eq_true. eauto.
Qed.

(** X13. [KeyFileExists] tells whether the constructor's load of a base
    key file finds a file: when it is false, that load changes nothing.
    Once it is true it stays true, whatever operations are run. *)
Theorem KeyFileExists_and_base_load (w : World) :
  (KeyFileExists false w = false →
   AttemptLoadKeyFile yuzu_keys_dir hactool_keys_dir base_key_file false w
   = w) ∧
  (KeyFileExists true w = false →
   AttemptLoadKeyFile yuzu_keys_dir hactool_keys_dir "title.keys" true w
   = w) ∧
  (∀ ops title,
     KeyFileExists title w = true →
     KeyFileExists title (run_operations ops w) = true).
Proof.
  split; [|split].
  - unfold KeyFileExists, base_key_file.
    destruct use_dev_keys; apply AttemptLoadKeyFile_absent.
  - unfold KeyFileExists. apply AttemptLoadKeyFile_absent.
  - intros ops title.
    assert (files_extended (files w) (files (run_operations ops w))) as Hext.
    { unfold run_operations. revert w.
      induction ops as [|op ops IH]; intros w; [apply files_extended_refl|].
      cbn [foldl]. eapply files_extended_trans; [|apply IH].
      apply run_operation_appended. }
    unfold KeyFileExists.
    destruct title; [|destruct use_dev_keys];
      rewrite !orb_true_iff; intros [Hex|Hex];
      eauto using FileUtil_Exists_kept.
Qed.

(** X14. When no autogenerated file can be opened for writing, or when the
    index is neither a title key nor named, [SetKey] on a free slot keeps
    the key in memory only: the files and all other slots are as before. *)
Theorem SetKey_without_write (w : World) :
  (∀ id key f1 f2,
     HasKey128 (keys w) id f1 f2 = false →
     (∀ path, path ∈ autogenerated_paths → ofstream_is_open path = false)
     ∨ (id ≠ Titlekey ∧ file_id_find_if s128_file_id id f1 f2 = None) →
     SetKey128 id key f1 f2 w
     = MkWorld (files w) (assign128 (MkKeyIndex id f1 f2) key (keys w))) ∧
  (∀ id key f1 f2,
     HasKey256 (keys w) id f1 f2 = false →
     (∀ path, path ∈ autogenerated_paths → ofstream_is_open path = false)
     ∨ file_id_find_if s256_file_id id f1 f2 = None →
     SetKey256 id key f1 f2 w
     = MkWorld (files w) (assign256 (MkKeyIndex id f1 f2) key (keys w))).
Proof.
  assert (∀ n title_key keyname (key : array n),
            (∀ path, path ∈ autogenerated_paths →
                     ofstream_is_open path = false) →
            WriteKeyToFile title_key keyname key w = w) as Hclosed.
  { intros n title_key keyname key Hno.
    pose proof (Hno _ (WriteKeyToFile_path_autogenerated title_key w))
      as Hpath.
    unfold WriteKeyToFile_path, autogenerated_path in Hpath.
    unfold WriteKeyToFile. cbv zeta.
    destruct title_key; cbn [negb] in *; by rewrite Hpath. }
  split; intros id key f1 f2 Habsent Hcase.
  - unfold SetKey128. unfold HasKey128 in Habsent. rewrite Habsent.
    destruct Hcase as [Hno|[Hid Hfind]].
    + destruct (bool_decide (id = Titlekey));
        rewrite ?Hclosed by done;
        destruct (file_id_find_if s128_file_id id f1 f2);
        by rewrite ?Hclosed by done.
    + by rewrite bool_decide_eq_false_2, Hfind.
  - unfold SetKey256. unfold HasKey256 in Habsent. rewrite Habsent.
    destruct Hcase as [Hno|Hfind].
    + destruct (file_id_find_if s256_file_id id f1 f2);
        by rewrite ?Hclosed by done.
    + by rewrite Hfind.
Qed.

(** X15. [DeriveSDSeedLazy] fills the seed slot at most once: a seed that
    is already stored is kept, otherwise the slot receives what
    [DeriveSDSeed] finds, and nothing at all changes if it finds nothing.
    Running it again with the same files changes nothing. *)
Theorem DeriveSDSeedLazy_result
    (save_43 sd_private : option (list u8)) (w : World) :
  let w' := DeriveSDSeedLazy save_43 sd_private w in
  s128_keys (keys w') !! MkKeyIndex SDSeed 0 0 =
    match s128_keys (keys w) !! MkKeyIndex SDSeed 0 0 with
    | Some seed => Some seed
    | None => DeriveSDSeed save_43 sd_private
    end ∧
  (HasKey128 (keys w) SDSeed 0 0 = true ∨ DeriveSDSeed save_43 sd_private = None
   → w' = w) ∧
  DeriveSDSeedLazy save_43 sd_private w' = w'.
Proof.
  cbv zeta.
  assert (HasKey128 (keys w) SDSeed 0 0 = true ∨
          DeriveSDSeed save_43 sd_private = None →
          DeriveSDSeedLazy save_43 sd_private w = w) as Hnoop.
  { unfold DeriveSDSeedLazy. intros [->| ->]; [done|]. by case_match. }
  split; [|split; [done|]].
  - unfold DeriveSDSeedLazy, HasKey128.
    destruct (s128_keys (keys w) !! MkKeyIndex SDSeed 0 0) as [seed|] eqn:Hold.
    + by rewrite bool_decide_eq_true_2 by eauto.
    + rewrite bool_decide_eq_false_2 by (by intros [? ?]).
      destruct (DeriveSDSeed save_43 sd_private) as [res|]; [|done].
      by rewrite SetKey128_lookup, Hold.
  - destruct (HasKey128 (keys w) SDSeed 0 0) eqn:Hhas.
    { by rewrite !Hnoop by auto. }
    destruct (DeriveSDSeed save_43 sd_private) as [res|] eqn:Hres.
    2:{ by rewrite !Hnoop by auto. }
    unfold DeriveSDSeedLazy at 1.
    replace (HasKey128 (keys (DeriveSDSeedLazy save_43 sd_private w))
               SDSeed 0 0) with true; [done|].
    symmetry. apply HasKey128_spec.
    unfold DeriveSDSeedLazy. rewrite Hhas, Hres, SetKey128_lookup. eauto.
Qed.

(** *** The text [WriteKeyToFile] produces *)

(** X20. When the stream opens, [WriteKeyToFile] appends the line of the
    key to the autogenerated file of its kind, and puts the comment block
    in front of it exactly when the file did not exist; no other file
    changes.  When the stream does not open, nothing changes at all.  Two
    writes to a new file therefore give the comment block once, followed
    by the two lines. *)
Theorem WriteKeyToFile_text {n m} (title_key : bool)
    (keyname keyname' : string) (key : array n) (key' : array m) (w : World) :
  let path := WriteKeyToFile_path title_key w in
  let w' := WriteKeyToFile title_key keyname key w in
  (ofstream_is_open path = false → w' = w) ∧
  (ofstream_is_open path = true →
   files w' !! path =
     Some (match files w !! path with
           | Some old => old +:+ key_line keyname key
           | None => info_text +:+ key_line keyname key
           end) ∧
   (∀ other, other ≠ path → files w' !! other = files w !! other) ∧
   (files w !! path = None →
    files (WriteKeyToFile title_key keyname' key' w') !! path =
      Some ((info_text +:+ key_line keyname key)
            +:+ key_line keyname' key'))).
Proof.
  cbv zeta.
  assert (∀ k kn (ky : array k) w0,
            ofstream_is_open (WriteKeyToFile_path title_key w0) = true →
            files (WriteKeyToFile title_key kn ky w0)
            = <[WriteKeyToFile_path title_key w0 :=
                  match files w0 !! WriteKeyToFile_path title_key w0 with
                  | Some old => old +:+ key_line kn ky
                  | None => info_text +:+ key_line kn ky
                  end]> (files w0)) as Hwrite.
  { intros k kn ky w0 Hopen. rewrite WriteKeyToFile_files. cbv zeta.
    rewrite Hopen. unfold FileUtil_Exists.
    destruct (files w0 !! WriteKeyToFile_path title_key w0) as [old|].
    - rewrite bool_decide_eq_true_2 by eauto. cbn [default].
      by rewrite string_app_nil_r.
    - rewrite bool_decide_eq_false_2 by (by intros [? ?]). cbn [default].
      by rewrite string_app_nil_l. }
  split.
  - intros Hclosed. unfold WriteKeyToFile_path, autogenerated_path in Hclosed.
    unfold WriteKeyToFile. cbv zeta.
    destruct title_key; cbn [negb] in *; by rewrite Hclosed.
  - intros Hopen. rewrite Hwrite by done.
    split; [by rewrite lookup_insert_eq|].
    split; [intros other Hother; by rewrite lookup_insert_ne|].
    intros Hnew.
    assert (WriteKeyToFile_path title_key
              (WriteKeyToFile title_key keyname key w)
            = WriteKeyToFile_path title_key w) as Hsame.
    { unfold WriteKeyToFile_path.
      by rewrite (proj1 (WriteKeyToFile_kept title_key keyname key w)). }
    rewrite Hwrite by (by rewrite Hsame).
    rewrite Hsame, lookup_insert_eq, Hwrite by done.
    by rewrite lookup_insert_eq, Hnew.
Qed.

(** *** Title-key loads and general loads do not interfere *)

Lemma file_value128_general_Titlekey file i :
  type i = Titlekey → file_value128 false file i = None.
Proof.
  intros Htype. unfold file_value128.
  destruct (last_value _ i) as [key|] eqn:Hvalue; [|done].
  apply last_value_Some, list_elem_of_fmap in Hvalue as (line & Hentry & _).
  symmetry in Hentry. apply line_entry128_index in Hentry.
  by apply named128_not_Titlekey in Hentry.
Qed.

(** X21. A load in title-key mode and a load in general mode commute:
    the two kinds of file fill disjoint slots, so the order in which a
    title-key file and a general key file are loaded does not matter. *)
Theorem LoadFromFile_title_general_commute
    (title_file general_file : string) (w : World) :
  LoadFromFile title_file true (LoadFromFile general_file false w)
  = LoadFromFile general_file false (LoadFromFile title_file true w).
Proof.
  apply World_eq; [by rewrite !LoadFromFile_files|].
  apply KeyManager_eq.
  - pose proof LoadFromFile_kept as Hkept. unfold keys_kept in Hkept.
    by rewrite !(proj1 (Hkept _ _ _)).
  - apply map_eq. intros i.
    repeat (rewrite LoadFromFile_s128 || rewrite LoadFromFile_files).
    destruct (files w !! title_file) as [tf|],
      (files w !! general_file) as [gf|]; try done.
    destruct (decide (type i = Titlekey)) as [Ht|Ht].
    + by rewrite (file_value128_general_Titlekey gf i Ht).
    + by rewrite (file_value128_title_other tf i Ht).
  - apply map_eq. intros i.
    repeat (rewrite LoadFromFile_s256 || rewrite LoadFromFile_files).
    destruct (files w !! title_file) as [tf|],
      (files w !! general_file) as [gf|]; try done.
    by rewrite file_value256_title.
Qed.

End MoreStoreProperties.

(** ** Further properties of the derivation engine *)

Section MoreDerivationProperties.
Context `{AESUtil} `{HexUtil} `{Host}.

(** [DeriveSDKeys] in closed form. *)
Lemma DeriveSDKeys_cases (sd_keys : Key256 * Key256) (keys : KeyManager) :
  DeriveSDKeys sd_keys keys =
  match first_missing keys with
  | Some op => (missing_status op, sd_keys)
  | None =>
      let sd_kek :=
        GenerateKeyEncryptionKey
          (GetKey128 keys Source (SourceKeyType_u64 SDKEK) 0)
          (GetKey128 keys Master 0 0)
          (GetKey128 keys Source (SourceKeyType_u64 AESKEKGeneration) 0)
          (GetKey128 keys Source (SourceKeyType_u64 AESKeyGeneration) 0) in
      let sd_seed := GetKey128 keys SDSeed 0 0 in
      (Success,
       (Transcode (AESCipher sd_kek)
          (combine_source_and_seed
             (GetKey256 keys SDKeySource (SDKeyType_u64 Save) 0) sd_seed),
        Transcode (AESCipher sd_kek)
          (combine_source_and_seed
             (GetKey256 keys SDKeySource (SDKeyType_u64 NCA) 0) sd_seed)))
  end.
Proof.
  unfold DeriveSDKeys.
  pose proof (DeriveSDKeys_body_result keys) as Hres.
  destruct (DeriveSDKeys_body keys) as [calls result]. cbn [snd] in Hres.
  subst result. by destruct (first_missing keys).
Qed.

(** X16. When [DeriveSDKeys] fails it leaves [sd_keys] exactly as it was;
    when it succeeds the result does not depend on what [sd_keys] held. *)
Theorem DeriveSDKeys_output_argument
    (sd_keys : Key256 * Key256) (keys : KeyManager) :
  ((DeriveSDKeys sd_keys keys).1 ≠ Success →
   (DeriveSDKeys sd_keys keys).2 = sd_keys) ∧
  ((DeriveSDKeys sd_keys keys).1 = Success →
   ∀ sd_keys', DeriveSDKeys sd_keys' keys = DeriveSDKeys sd_keys keys).
Proof.
  rewrite DeriveSDKeys_cases.
  destruct (first_missing keys) as [op|] eqn:Hfirst; cbn [fst snd].
  - split; [done|]. by destruct op.
  - split; [done|]. intros _ sd_keys'.
    by rewrite DeriveSDKeys_cases, Hfirst.
Qed.

(** X17. [DeriveSDKeys] depends on seven slots only: the three sources,
    the generation-0 master key, the seed and the two 256-bit sources.  Two
    key stores that agree on them give the same status and the same keys,
    whatever else they hold. *)
Theorem DeriveSDKeys_reads_only
    (sd_keys : Key256 * Key256) (keys keys' : KeyManager) :
  Forall (λ i, s128_keys keys !! i = s128_keys keys' !! i)
         DeriveSDKeys_reads128 →
  Forall (λ i, s256_keys keys !! i = s256_keys keys' !! i)
         DeriveSDKeys_reads256 →
  DeriveSDKeys sd_keys keys = DeriveSDKeys sd_keys keys'.
Proof.
  unfold DeriveSDKeys_reads128, DeriveSDKeys_reads256.
  rewrite !Forall_cons.
  intros (Ha & Hb & Hc & Hd & He & _) (Hf & Hg & _).
  rewrite !DeriveSDKeys_cases.
  unfold first_missing, operands. cbn [List.find operand_present].
  unfold GetKey128, GetKey256, HasKey128, HasKey256.
  by rewrite Ha, Hb, Hc, Hd, He, Hf, Hg.
Qed.

(** X18. Lazy seed derivation feeds storage-key derivation: if the other
    five operands are present and the seed is either stored already or
    found by [DeriveSDSeed], then after [DeriveSDSeedLazy] the call to
    [DeriveSDKeys] succeeds. *)
Theorem DeriveSDSeedLazy_then_DeriveSDKeys
    (save_43 sd_private : option (list u8)) (w : World)
    (sd_keys : Key256 * Key256) :
  (∀ op, op ≠ OpSDSeed → operand_present (keys w) op = true) →
  HasKey128 (keys w) SDSeed 0 0 = true
  ∨ is_Some (DeriveSDSeed save_43 sd_private) →
  (DeriveSDKeys sd_keys (keys (DeriveSDSeedLazy save_43 sd_private w))).1
  = Success.
Proof.
  intros Hothers Hseed.
  rewrite DeriveSDKeys_status.
  replace (first_missing (keys (DeriveSDSeedLazy save_43 sd_private w)))
    with (@None Operand); [done|].
  symmetry. apply first_missing_None. intros op.
  pose proof (DeriveSDSeedLazy_kept save_43 sd_private w)
    as (_ & H128 & H256).
  destruct (decide (op = OpSDSeed)) as [->|Hop].
  - cbn [operand_present]. apply HasKey128_spec.
    unfold DeriveSDSeedLazy.
    destruct (HasKey128 (keys w) SDSeed 0 0) eqn:Hhas;
      [by apply HasKey128_spec|].
    destruct Hseed as [?|[res Hres]]; [done|].
    rewrite Hres, SetKey128_lookup. eauto.
  - specialize (Hothers op Hop).
    destruct op; cbn [operand_present] in *; try done;
      first [ apply HasKey128_spec, H128; by apply HasKey128_spec
            | apply HasKey256_spec, H256; by apply HasKey256_spec ].
Qed.

End MoreDerivationProperties.

(** ** Further properties of the device seed discovery *)

Section MoreSeedProperties.

(** X19. [DeriveSDSeed] yields no seed when either file cannot be opened,
    when the private file has fewer than 16 bytes, and when no 16-byte
    window of the save file that is followed by at least one byte equals
    the marker (in particular when the save file has at most 16 bytes). *)
Theorem DeriveSDSeed_no_seed :
  (∀ sd_private, DeriveSDSeed None sd_private = None) ∧
  (∀ save_43, DeriveSDSeed save_43 None = None) ∧
  (∀ save_43 sd_private,
     length sd_private < 16 →
     DeriveSDSeed (Some save_43) (Some sd_private) = None) ∧
  (∀ save_43 sd_private (marker : Key128),
     take 16 sd_private = vec_to_list marker →
     (∀ o, o + 16 < length save_43 → ¬ marker_at save_43 marker o) →
     DeriveSDSeed (Some save_43) (Some sd_private) = None).
Proof.
  split; [done|]. split; [by intros []|]. split.
  - intros save_43 sd_private Hshort. unfold DeriveSDSeed, ReadBytes.
    rewrite drop_0, length_take.
    rewrite bool_decide_eq_true_2 by lia. done.
  - intros save_43 sd_private marker Hmarker Hnone.
    rewrite (DeriveSDSeed_opened _ _ _ Hmarker). cbv zeta.
    pose proof (scan_save_43_result save_43 marker (zero_array 16) 0)
      as (_ & Hfound & _).
    unfold GetSize in *.
    rewrite bool_decide_eq_true_2; [done|].
    destruct (decide (length save_43 ≤
                      scan_save_43 save_43 marker (zero_array 16) 0 + 16))
      as [|Hlt]; [done|].
    exfalso. apply (Hnone (scan_save_43 save_43 marker (zero_array 16) 0)).
    + lia.
    + apply Hfound. lia.
Qed.

End MoreSeedProperties.

(** ** Worked instances *)

Lemma GetKey_absent_zero_HasKey_false_witness :
  (vec_to_list (GetKey128 operands_only Master 0 0) = replicate 16 x00 ∧
   HasKey128 operands_only Master 0 0 = false) ∧
  (vec_to_list (GetKey256 operands_only Header 0 0) = replicate 32 x00 ∧
   HasKey256 operands_only Header 0 0 = false).
Proof.
  split.
  - apply (proj1 (GetKey_absent_zero_HasKey_false operands_only)).
    vm_compute. reflexivity.
  - apply (proj2 (GetKey_absent_zero_HasKey_false operands_only)).
    vm_compute. reflexivity.
Defined.

Lemma SetKey_occupied_is_noop_witness :
  let w := MkWorld base_disk operands_and_master in
  let first := hex_to_array 16 "C2CAAFF089B9AED55694876055271C7D" in
  let second := hex_to_array 16 "11111111111111111111111111111111" in
  let first256 :=
    hex_to_array 32
      "2449B722726703A81965E6E3EA582FDD9A951517B16E8F7F1F68263152EA296A" in
  (@SetKey128 reference_hex example_host Master second 0 0 w = w ∧
   s128_keys (keys (@SetKey128 reference_hex example_host Master second 0 0 w))
     !! MkKeyIndex Master 0 0 = Some first) ∧
  (@SetKey256 reference_hex example_host SDKeySource (zero_array 32) 0 0 w = w ∧
   s256_keys
     (keys (@SetKey256 reference_hex example_host SDKeySource
              (zero_array 32) 0 0 w))
     !! MkKeyIndex SDKeySource 0 0 = Some first256).
Proof.
  cbv zeta. split.
  - apply (proj1 (@SetKey_occupied_is_noop reference_hex example_host
                    (MkWorld base_disk operands_and_master))).
    vm_compute. reflexivity.
  - apply (proj2 (@SetKey_occupied_is_noop reference_hex example_host
                    (MkWorld base_disk operands_and_master))).
    vm_compute. reflexivity.
Defined.

Lemma load_assigns_SetKey_keeps_witness :
  let w := MkWorld base_and_autogenerated_disk (MkKeyManager false ∅ ∅) in
  let base := "/home/user/.local/share/yuzu/keys/prod.keys"%string in
  let autogenerated :=
    "/home/user/.local/share/yuzu/keys/prod.keys_autogenerated"%string in
  let loaded :=
    @LoadFromFile reference_hex autogenerated false
      (@LoadFromFile reference_hex base false w) in
  s128_keys (keys loaded) !! MkKeyIndex Master 0 0
    = Some (hex_to_array 16 "11111111111111111111111111111111") ∧
  @SetKey128 reference_hex example_host Master (zero_array 16) 0 0 loaded
    = loaded.
Proof.
  cbv zeta. split.
  - etrans.
    + apply (proj1 (@load_assigns_SetKey_keeps reference_hex example_host
                      (MkWorld base_and_autogenerated_disk
                         (MkKeyManager false ∅ ∅))
                      "/home/user/.local/share/yuzu/keys/prod.keys"
                      "/home/user/.local/share/yuzu/keys/prod.keys_autogenerated"
                      false)).
    + vm_compute. reflexivity.
  - apply (proj1 (proj2 (proj2
      (@load_assigns_SetKey_keeps reference_hex example_host
         (@LoadFromFile reference_hex
            "/home/user/.local/share/yuzu/keys/prod.keys_autogenerated" false
            (@LoadFromFile reference_hex
               "/home/user/.local/share/yuzu/keys/prod.keys" false
               (MkWorld base_and_autogenerated_disk
                  (MkKeyManager false ∅ ∅))))
         "" "" false)))).
    vm_compute. eexists. reflexivity.
Defined.

Lemma titlekey_rights_id_round_trip_witness :
  ∃ f1 f2 : u64,
    memcpy_Key128 f2 f1 = hex_to_array 16 example_rights_id ∧
    @LoadFromFile_line reference_hex true (keys empty_world)
      (example_rights_id +:+ " = " +:+ example_title_key)
    = assign128 (MkKeyIndex Titlekey f1 f2)
        (hex_to_array 16 example_title_key) (keys empty_world).
Proof.
  destruct (@titlekey_rights_id_round_trip reference_hex example_host
              example_rights_id example_title_key
              (keys empty_world) empty_world (zero_array 16))
    as (f1 & f2 & _ & Hload & Hback & _).
  - vm_compute. reflexivity.
  - vm_compute. reflexivity.
  - exists f1, f2. split; [exact Hback | exact Hload].
Defined.

(** With the reference codec the round trip is visible in the file:
    [SetKey] on the index that the line of [example_rights_id] resolves to
    appends a line with that very name. *)
Example titlekey_line_written_back :
  let index := memcpy_u128 (hex_to_array 16 example_rights_id) in
  files (@SetKey128 reference_hex example_host Titlekey
           (hex_to_array 16 example_title_key) index.2 index.1 empty_world)
  !! "/home/user/.local/share/yuzu/keys/title.keys_autogenerated"%string
  = Some (@info_text +:+ String LF
            (example_rights_id +:+ " = " +:+ example_title_key)).
Proof. vm_compute. reflexivity. Qed.

Lemma DeriveSDKeys_operand_precedence_witness :
  (@DeriveSDKeys standin_cipher (zero_array 32, zero_array 32)
     (MkKeyManager false (delete (MkKeyIndex SDSeed 0 0)
                            (s128_keys operands_and_master))
        (s256_keys operands_and_master))).1
  = ErrorMissingSDSeed ∧
  ∃ save_key nca_key,
    @DeriveSDKeys standin_cipher (zero_array 32, zero_array 32)
      operands_and_master
    = (Success, (save_key, nca_key)).
Proof.
  split.
  - apply (proj1 (proj2 (@DeriveSDKeys_operand_precedence standin_cipher
                           (zero_array 32, zero_array 32) _)) OpSDSeed).
    + vm_compute. reflexivity.
    + intros op' Hne. destruct op'; vm_compute; try reflexivity.
      exfalso. apply Hne. reflexivity.
  - apply (proj1 (proj2 (proj2
             (@DeriveSDKeys_operand_precedence standin_cipher
                (zero_array 32, zero_array 32) operands_and_master)))).
    intros op. destruct op; vm_compute; reflexivity.
Defined.

Lemma DeriveSDKeys_success_output_witness :
  ∃ (sd_seed : Key128) (save_source nca_source xored_save xored_nca : Key256),
    s128_keys operands_and_master !! MkKeyIndex SDSeed 0 0 = Some sd_seed ∧
    s256_keys operands_and_master !! MkKeyIndex SDKeySource (SDKeyType_u64 Save) 0
      = Some save_source ∧
    s256_keys operands_and_master !! MkKeyIndex SDKeySource (SDKeyType_u64 NCA) 0
      = Some nca_source ∧
    vec_to_list xored_save = xor_with_repeated_seed save_source sd_seed ∧
    vec_to_list xored_nca = xor_with_repeated_seed nca_source sd_seed ∧
    (@DeriveSDKeys standin_cipher (zero_array 32, zero_array 32)
       operands_and_master).2
    = (@unwrap standin_cipher _ (@sd_kek_of standin_cipher operands_and_master)
         xored_save,
       @unwrap standin_cipher _ (@sd_kek_of standin_cipher operands_and_master)
         xored_nca).
Proof.
  apply (@DeriveSDKeys_success_output standin_cipher
           (zero_array 32, zero_array 32)).
  vm_compute. reflexivity.
Defined.

Lemma DeriveSDSeed_finds_first_marker_witness :
  ∃ (o0 : nat) (seed : Key128),
    o0 ≤ 3 ∧
    marker_at save_with_seed
      (hex_to_array 16 "A1B2C3D4E5F60718293A4B5C6D7E8F90") o0 ∧
    (∀ j, j < o0 →
       ¬ marker_at save_with_seed
           (hex_to_array 16 "A1B2C3D4E5F60718293A4B5C6D7E8F90") j) ∧
    DeriveSDSeed (Some save_with_seed) (Some example_marker) = Some seed ∧
    vec_to_list seed = take 16 (drop (o0 + 16) save_with_seed).
Proof.
  apply (DeriveSDSeed_finds_first_marker save_with_seed example_marker
           (hex_to_array 16 "A1B2C3D4E5F60718293A4B5C6D7E8F90") 3).
  - vm_compute. reflexivity.
  - vm_compute. reflexivity.
  - vm_compute. lia.
Defined.

(** The seed found in [save_with_seed]. *)
Example DeriveSDSeed_save_with_seed :
  DeriveSDSeed (Some save_with_seed) (Some example_marker)
  = Some (hex_to_array 16 "00112233445566778899AABBCCDDEEFF").
Proof. vm_compute. reflexivity. Qed.

(** *** Instances of the further properties *)

Lemma keys_never_removed_witness :
  HasKey128
    (keys (@run_operations reference_hex example_host example_operations
             loaded_world)) Master 0 0 = true.
Proof.
  apply (proj1 (proj2 (@keys_never_removed reference_hex example_host
                         example_operations loaded_world))).
  vm_compute. reflexivity.
Defined.

Lemma files_only_appended_witness :
  ∃ suffix,
    files (@run_operations reference_hex example_host example_operations
             loaded_world)
    !! "/home/user/.local/share/yuzu/keys/prod.keys"%string
    = Some ("master_key_00 = C2CAAFF089B9AED55694876055271C7D" +:+ suffix).
Proof.
  apply (proj1 (@files_only_appended reference_hex example_host
                  example_operations loaded_world)).
  vm_compute. reflexivity.
Defined.

Lemma LoadFromFile_without_entries_witness :
  @LoadFromFile reference_hex
    "/home/user/.local/share/yuzu/keys/prod.keys_autogenerated" false
    (MkWorld header_only_disk operands_and_master)
  = MkWorld header_only_disk operands_and_master.
Proof.
  apply (@LoadFromFile_without_entries reference_hex).
  intros file Hfile. vm_compute in Hfile. injection Hfile as <-.
  vm_compute. reflexivity.
Defined.

Lemma LoadFromFile_changes_only_witness :
  MkKeyIndex Master 0 0 ∈ named128 ∧ type (MkKeyIndex Master 0 0) ≠ Titlekey.
Proof.
  apply (proj1 (@LoadFromFile_changes_only reference_hex
                  "/home/user/.local/share/yuzu/keys/prod.keys" false
                  (MkWorld base_disk (MkKeyManager false ∅ ∅)))
               (MkKeyIndex Master 0 0)).
  vm_compute. discriminate.
Defined.

Lemma name_tables_one_to_one_witness :
  file_id_find_if s128_file_id SDSeed 0 0
  = Some ("sd_seed"%string, MkKeyIndex SDSeed 0 0).
Proof.
  apply (proj1 (proj1 name_tables_one_to_one "sd_seed"%string
                  (MkKeyIndex SDSeed 0 0))).
  vm_compute. reflexivity.
Defined.

Lemma general_key_line_round_trip_witness :
  let km' :=
    @LoadFromFile_line reference_hex false (keys empty_world)
      ("MASTER_KEY_00" +:+ " = " +:+ "C2CAAFF089B9AED55694876055271C7D") in
  HasKey128 km' Master 0 0 = true ∧
  GetKey128 km' Master 0 0
    = hex_to_array 16 "C2CAAFF089B9AED55694876055271C7D" ∧
  s256_keys km' = s256_keys (keys empty_world).
Proof.
  apply (proj1 (@general_key_line_round_trip reference_hex
                  (keys empty_world) "MASTER_KEY_00"
                  "C2CAAFF089B9AED55694876055271C7D"
                  ltac:(vm_compute; reflexivity)
                  ltac:(vm_compute; reflexivity))
               (MkKeyIndex Master 0 0)).
  vm_compute. reflexivity.
Defined.

Lemma written_key_survives_restart_witness :
  let key := hex_to_array 16 "00112233445566778899AABBCCDDEEFF" in
  let fresh :=
    @KeyManager_new reference_hex example_host
      (files (@SetKey128 reference_hex example_host SDSeed key 0 0
                empty_world)) in
  HasKey128 (keys fresh) SDSeed 0 0 = true ∧
  GetKey128 (keys fresh) SDSeed 0 0 = key.
Proof.
  apply (proj1 (@written_key_survives_restart reference_hex example_host
                  empty_world
                  ltac:(vm_compute; reflexivity)
                  ltac:(vm_compute; reflexivity))).
  - vm_compute. reflexivity.
  - vm_compute. eexists. reflexivity.
  - vm_compute. reflexivity.
  - vm_compute. reflexivity.
Defined.

Lemma written_title_key_survives_restart_witness :
  let key := hex_to_array 16 example_title_key in
  let fresh :=
    @KeyManager_new reference_hex example_host
      (files (@SetKey128 reference_hex example_host Titlekey key
                144115188075855872 16140901064495857665 empty_world)) in
  HasKey128 (keys fresh) Titlekey 144115188075855872 16140901064495857665
    = true ∧
  GetKey128 (keys fresh) Titlekey 144115188075855872 16140901064495857665
    = key.
Proof.
  apply (@written_title_key_survives_restart reference_hex example_host
           empty_world 144115188075855872 16140901064495857665
           (hex_to_array 16 example_title_key)).
  all: vm_compute; reflexivity.
Defined.

Lemma KeyManager_new_invariants_witness :
  Master = Titlekey ∨ MkKeyIndex Master 0 0 ∈ named128.
Proof.
  apply (proj1 (proj2 (proj2 (@KeyManager_new_invariants reference_hex
                                example_host base_and_autogenerated_disk)))).
  vm_compute. reflexivity.
Defined.

Lemma KeyFileExists_and_base_load_witness :
  @AttemptLoadKeyFile reference_hex example_host
    (@yuzu_keys_dir example_host) (@hactool_keys_dir example_host)
    (@base_key_file example_host) false empty_world
  = empty_world.
Proof.
  apply (proj1 (@KeyFileExists_and_base_load reference_hex example_host
                  empty_world)).
  vm_compute. reflexivity.
Defined.

Lemma SetKey_without_write_witness :
  @SetKey128 reference_hex readonly_host SDSeed (zero_array 16) 0 0
    empty_world
  = MkWorld ∅ (assign128 (MkKeyIndex SDSeed 0 0) (zero_array 16)
                 (keys empty_world)) ∧
  @SetKey128 reference_hex example_host Master (zero_array 16) 7 0
    empty_world
  = MkWorld ∅ (assign128 (MkKeyIndex Master 7 0) (zero_array 16)
                 (keys empty_world)).
Proof.
  split.
  - apply (proj1 (@SetKey_without_write reference_hex readonly_host
                    empty_world)).
    + vm_compute. reflexivity.
    + left. intros path _. reflexivity.
  - apply (proj1 (@SetKey_without_write reference_hex example_host
                    empty_world)).
    + vm_compute. reflexivity.
    + right. split; [discriminate|]. vm_compute. reflexivity.
Defined.

Lemma DeriveSDSeedLazy_result_witness :
  @DeriveSDSeedLazy reference_hex example_host
    (Some save_with_one_trailing_byte) None empty_world
  = empty_world.
Proof.
  apply (proj1 (proj2 (@DeriveSDSeedLazy_result reference_hex example_host
                         (Some save_with_one_trailing_byte) None
                         empty_world))).
  right. reflexivity.
Defined.

Lemma DeriveSDKeys_output_argument_witness :
  (@DeriveSDKeys standin_cipher (zero_array 32, zero_array 32)
     operands_without_seed).2
  = (zero_array 32, zero_array 32).
Proof.
  apply (proj1 (@DeriveSDKeys_output_argument standin_cipher
                  (zero_array 32, zero_array 32) operands_without_seed)).
  vm_compute. discriminate.
Defined.

Lemma DeriveSDKeys_reads_only_witness :
  @DeriveSDKeys standin_cipher (zero_array 32, zero_array 32)
    operands_and_master
  = @DeriveSDKeys standin_cipher (zero_array 32, zero_array 32)
      (assign128 (MkKeyIndex Titlekey 1 2) (zero_array 16)
         operands_and_master).
Proof.
  apply (@DeriveSDKeys_reads_only standin_cipher).
  - repeat (constructor; [vm_compute; reflexivity|]). constructor.
  - repeat (constructor; [vm_compute; reflexivity|]). constructor.
Defined.

Lemma DeriveSDSeedLazy_then_DeriveSDKeys_witness :
  (@DeriveSDKeys standin_cipher (zero_array 32, zero_array 32)
     (keys (@DeriveSDSeedLazy reference_hex example_host
              (Some save_with_seed) (Some example_marker)
              (MkWorld ∅ operands_without_seed)))).1
  = Success.
Proof.
  apply (@DeriveSDSeedLazy_then_DeriveSDKeys standin_cipher reference_hex
           example_host).
  - intros op Hne. destruct op; vm_compute; try reflexivity.
    exfalso. apply Hne. reflexivity.
  - right. vm_compute. eexists. reflexivity.
Defined.

Lemma DeriveSDSeed_no_seed_witness :
  DeriveSDSeed (Some save_with_seed) (Some [x00; x01; x02]) = None.
Proof.
  apply (proj1 (proj2 (proj2 DeriveSDSeed_no_seed))).
  vm_compute. lia.
Defined.

Lemma WriteKeyToFile_text_witness :
  @WriteKeyToFile reference_hex readonly_host 16 false "sd_seed"
    (zero_array 16) empty_world
  = empty_world.
Proof.
  apply (proj1 (@WriteKeyToFile_text reference_hex readonly_host 16 16 false
                  "sd_seed" "sd_seed" (zero_array 16) (zero_array 16)
                  empty_world)).
  vm_compute. reflexivity.
Defined.

(** Two keys written to a new autogenerated file. *)
Example WriteKeyToFile_two_lines :
  files (@SetKey256 reference_hex example_host Header
           (hex_to_array 32
              "000102030405060708090A0B0C0D0E0F101112131415161718191A1B1C1D1E1F")
           0 0
           (@SetKey128 reference_hex example_host SDSeed
              (hex_to_array 16 "00112233445566778899AABBCCDDEEFF") 0 0
              empty_world))
  !! "/home/user/.local/share/yuzu/keys/prod.keys_autogenerated"%string
  = Some (info_text
          +:+ String LF "sd_seed = 00112233445566778899AABBCCDDEEFF"
          +:+ String LF
            "header_key = 000102030405060708090A0B0C0D0E0F101112131415161718191A1B1C1D1E1F").
Proof. vm_compute. reflexivity. Qed.
